(** * Air Quality Index dashboard: the data layer of [finalproject2.py]

    A shallow embedding of the loading, normalisation and query code of
    the script, and the properties of the specification that concern it.

    - Python [str] values are lists of Unicode code points; comparison
      and sorting are by code point, as in Python.
    - A cell of the frame read by [pd.read_csv] is a string, a number or
      NaN (an empty CSV field).
    - The frame is an ordered list of rows.  Boolean-mask indexing
      [df[mask]], [Series.map], [dropna], [unique], [sorted], [nlargest]
      and [groupby(...).mean()] are written out as list functions.
    - A float64 is the rational it denotes (NaN apart).  A mean is the
      float64 quotient of the sum by the count: the exact quotient
      rounded to 53 significant bits, ties to even.  The sum itself is
      exact in float64 as long as it stays below 2^53 in magnitude; the
      script's values are at most 350. *)

From Stdlib Require Import List ZArith QArith Qabs Qreduction Bool Arith Lia.
From Stdlib Require Import Ascii String Permutation Sorted.
Import ListNotations.

Set Implicit Arguments.

Local Open Scope Z_scope.

(* ================================================================= *)
(** ** Python strings *)

Module Py.

(** A [str]: its code points. *)
Definition str := list N.

(** An ASCII literal of the script as a [str]. *)
Definition lit (s : string) : str :=
  List.map N_of_ascii (list_ascii_of_string s).

Definition str_eqb (a b : str) : bool :=
  if list_eq_dec N.eq_dec a b then true else false.

(** [ch.isspace()]: the code points Python treats as whitespace. *)
Definition isspace (c : N) : bool :=
  (((9 <=? c) && (c <=? 13)) ||
   ((28 <=? c) && (c <=? 32)) ||
   (c =? 133) || (c =? 160) || (c =? 5760) ||
   ((8192 <=? c) && (c <=? 8202)) ||
   (c =? 8232) || (c =? 8233) || (c =? 8239) || (c =? 8287) ||
   (c =? 12288))%N.

(** [s.lstrip()] *)
Fixpoint lstrip (s : str) : str :=
  match s with
  | [] => []
  | c :: t => if isspace c then lstrip t else s
  end.

(** [s.rstrip()] *)
Definition rstrip (s : str) : str := rev (lstrip (rev s)).

(** [s.strip()] *)
Definition strip (s : str) : str := rstrip (lstrip s).

(** [a < b] on [str]: lexicographic by code point. *)
Fixpoint ltb (a b : str) : bool :=
  match a, b with
  | [], [] => false
  | [], _ :: _ => true
  | _ :: _, [] => false
  | x :: a', y :: b' =>
      if (x <? y)%N then true
      else if (x =? y)%N then ltb a' b' else false
  end.

Definition leb (a b : str) : bool := negb (ltb b a).

(** [bool(s)] for a [str]: false only for the empty string. *)
Definition truthy (s : str) : bool :=
  match s with [] => false | _ :: _ => true end.

End Py.

(* ================================================================= *)
(** ** Cells, rows and frames *)

(** A cell as [read_csv] delivers it. *)
Inductive value : Type :=
| VStr (s : Py.str)
| VNum (z : Z)
| VNaN.

Definition value_eq_dec (a b : value) : {a = b} + {a <> b}.
Proof.
  decide equality.
  - apply (list_eq_dec N.eq_dec).
  - apply Z.eq_dec.
Defined.

Definition value_eqb (a b : value) : bool :=
  if value_eq_dec a b then true else false.

(** One record of the frame.  [Estimated_AQI] is the column the script
    adds ([None] is NaN, also when the file has no such column);
    [others] are the remaining cells, carried along untouched. *)
Record row : Type := mkRow {
  City : value;
  PM25_AQI_Category : value;
  Estimated_AQI : option Z;
  others : list value
}.

Definition DataFrame := list row.

(* ================================================================= *)
(** ** The category table and normalisation (lines 46-62) *)

(** The dict literal [category_to_value], in source order. *)
Definition category_to_value : list (Py.str * Z) :=
  [ (Py.lit "Good", 25);
    (Py.lit "Moderate", 75);
    (Py.lit "Unhealthy for Sensitive Groups", 125);
    (Py.lit "Unhealthy", 175);
    (Py.lit "Very Unhealthy", 250);
    (Py.lit "Hazardous", 350) ].

(** [d.get(k)] on a dict with string keys. *)
Fixpoint dict_get (d : list (Py.str * Z)) (k : Py.str) : option Z :=
  match d with
  | [] => None
  | (k', v) :: d' => if Py.str_eqb k' k then Some v else dict_get d' k
  end.

(** One element of [Series.map(d)]: a cell that is not a key (a string
    outside the dict, a number, NaN) maps to NaN. *)
Definition map_cell (d : list (Py.str * Z)) (v : value) : option Z :=
  match v with
  | VStr s => dict_get d s
  | VNum _ => None
  | VNaN => None
  end.

(** [df['Estimated AQI'] = df['PM2.5 AQI Category'].map(category_to_value)] *)
Definition set_Estimated_AQI (r : row) (v : option Z) : row :=
  mkRow (City r) (PM25_AQI_Category r) v (others r).

Definition assign_estimated (df : DataFrame) : DataFrame :=
  List.map (fun r => set_Estimated_AQI r
                       (map_cell category_to_value (PM25_AQI_Category r))) df.

Definition notna (r : row) : bool :=
  match Estimated_AQI r with Some _ => true | None => false end.

(** [df.dropna(subset=['Estimated AQI'], inplace=True)] *)
Definition dropna (df : DataFrame) : DataFrame := List.filter notna df.

(** Lines 61-62 together. *)
Definition normalize (df : DataFrame) : DataFrame :=
  dropna (assign_estimated df).

(** A row whose category cell is not a key of the table. *)
Definition unmapped (r : row) : bool :=
  match map_cell category_to_value (PM25_AQI_Category r) with
  | Some _ => false
  | None => true
  end.

(* ================================================================= *)
(** ** Series and mask indexing *)

(** [df[name]]: one column as a series. *)
Definition col (A : Type) (f : row -> A) (df : DataFrame) : list A :=
  List.map f df.

(** [series == c] against a Python value that is [None] or a [str]:
    only a string cell holding the same string compares equal. *)
Definition eq_str (c : option Py.str) (v : value) : bool :=
  match c, v with
  | Some s, VStr s' => Py.str_eqb s' s
  | _, _ => false
  end.

(** [series > t]: NaN compares false. *)
Definition gt (t : Z) (e : option Z) : bool :=
  match e with
  | Some z => z >? t
  | None => false
  end.

(** [a & b] on boolean series of one frame. *)
Fixpoint mask_and (a b : list bool) : list bool :=
  match a, b with
  | x :: a', y :: b' => (x && y) :: mask_and a' b'
  | _, _ => []
  end.

(** [df[mask]]: the rows whose mask entry is true, in frame order. *)
Fixpoint getitem (df : DataFrame) (mask : list bool) : DataFrame :=
  match df, mask with
  | r :: df', b :: mask' =>
      if b then r :: getitem df' mask' else getitem df' mask'
  | _, _ => []
  end.

(* ================================================================= *)
(** ** Sorting and distinct values *)

Section Sorting.
Variable A : Type.
Variable le : A -> A -> bool.

(** Insert [x] before the first element it is not greater than. *)
Fixpoint insert (x : A) (l : list A) : list A :=
  match l with
  | [] => [x]
  | y :: t => if le x y then x :: l else y :: insert x t
  end.

(** A stable sort by [le], standing for Python's [sorted] and for the
    stable sorts inside pandas. *)
Fixpoint sort_by (l : list A) : list A :=
  match l with
  | [] => []
  | x :: t => insert x (sort_by t)
  end.
End Sorting.

(** [sorted(l)] on strings. *)
Definition sorted (l : list Py.str) : list Py.str := sort_by Py.leb l.

(** [Series.unique()]: the distinct cells in order of first appearance;
    all NaN cells count as one value. *)
Fixpoint unique_from (seen : list value) (l : list value) : list value :=
  match l with
  | [] => []
  | v :: t =>
      if existsb (value_eqb v) seen then unique_from seen t
      else v :: unique_from (v :: seen) t
  end.

Definition unique (l : list value) : list value := unique_from [] l.

(** The condition of the comprehension on line 65:
    [isinstance(city, str) and city.strip() != ''], yielding the string. *)
Definition city_name (v : value) : list Py.str :=
  match v with
  | VStr s => if negb (Py.str_eqb (Py.strip s) []) then [s] else []
  | VNum _ => []
  | VNaN => []
  end.

(** Line 65. *)
Definition cities (df : DataFrame) : list Py.str :=
  sorted (flat_map city_name (unique (col City df))).

(* ================================================================= *)
(** ** Query functions (lines 70-80, 110, 131-147) *)

(** Truth value of the [city] argument: [None] and [''] are false. *)
Definition provided (city : option Py.str) : bool :=
  match city with
  | Some s => Py.truthy s
  | None => false
  end.

(** [filter_data(df, city=None, threshold=50)]; every call of the script
    passes both arguments. *)
Definition filter_data (df : DataFrame) (city : option Py.str)
    (threshold : Z) : DataFrame :=
  if provided city then
    getitem df (mask_and (List.map (eq_str city) (col City df))
                         (List.map (gt threshold) (col Estimated_AQI df)))
  else
    getitem df (List.map (gt threshold) (col Estimated_AQI df)).

(** The non-NaN entries of a numeric series. *)
Definition values (s : list (option Z)) : list Z :=
  flat_map (fun e => match e with Some z => [z] | None => [] end) s.

Definition sum (l : list Z) : Z := fold_right Z.add 0 l.

(** *** float64 division

    For integers [a] and [b] that float64 holds exactly, [a / b] in
    float64 is the exact quotient rounded to the nearest number with a
    53-bit significand, ties to the even significand.  [scale_num] and
    [scale_den] give the quotient divided by [2 ^ e] as a fraction;
    [last_place] is the exponent at which that fraction lies between
    [2 ^ 52] and [2 ^ 53]. *)

Definition scale_num (a e : Z) : Z := if e <? 0 then a * 2 ^ (- e) else a.

Definition scale_den (b e : Z) : Z := if e <? 0 then b else b * 2 ^ e.

Definition last_place (a b : Z) : Z :=
  let e := Z.log2 a - Z.log2 b - 53 in
  if 2 ^ 53 * scale_den b e <=? scale_num a e then e + 1 else e.

(** The integer nearest to [n / d], the even one of two equally near. *)
Definition round_half_even (n d : Z) : Z :=
  let f := n / d in
  match 2 * (n mod d) ?= d with
  | Lt => f
  | Gt => f + 1
  | Eq => if Z.even f then f else f + 1
  end.

Definition two_power (e : Z) : Q :=
  if e <? 0 then 1 # Z.to_pos (2 ^ (- e)) else inject_Z (2 ^ e).

(** The float64 nearest to [a / b], for positive [a] and [b]. *)
Definition round_pos (a b : Z) : Q :=
  let e := last_place a b in
  Qred (inject_Z (round_half_even (scale_num a e) (scale_den b e))
        * two_power e).

(** [float(a) / float(b)] *)
Definition float64_div (a : Z) (b : positive) : Q :=
  match a with
  | 0 => 0
  | Zpos _ => round_pos a (Z.pos b)
  | Zneg _ => - round_pos (- a) (Z.pos b)
  end.

(** [Series.mean()]: NaN entries are skipped; NaN ([None]) when nothing
    is left; otherwise the float64 quotient of the sum by the count. *)
Definition mean (s : list (option Z)) : option Q :=
  match values s with
  | [] => None
  | v :: vs =>
      Some (float64_div (sum (v :: vs)) (Pos.of_nat (List.length (v :: vs))))
  end.

(** [Series.max()], skipping NaN. *)
Definition max (s : list (option Z)) : option Z :=
  match values s with
  | [] => None
  | v :: vs => Some (fold_left Z.max vs v)
  end.

(** [get_summary(df)] *)
Definition get_summary (df : DataFrame) : option Q * option Z :=
  (mean (col Estimated_AQI df), max (col Estimated_AQI df)).

(** Line 80: the dict comprehension over [cities], as the list of its
    items in insertion order. *)
Definition city_stats (df : DataFrame) : list (Py.str * option Q) :=
  List.map
    (fun city =>
       (city,
        mean (col Estimated_AQI
                (getitem df (List.map (eq_str (Some city)) (col City df))))))
    (cities df).

(** Order of group keys: numbers before strings, each kind ascending. *)
Definition key_leb (a b : value) : bool :=
  match a, b with
  | VNum x, VNum y => x <=? y
  | VNum _, _ => true
  | VStr _, VNum _ => false
  | VStr x, VStr y => Py.leb x y
  | VStr _, VNaN => true
  | VNaN, VNaN => true
  | VNaN, _ => false
  end.

Definition notnan (v : value) : bool :=
  match v with VNaN => false | _ => true end.

(** The keys of [df.groupby('City')]: distinct cells of the column,
    rows with a NaN key dropped, keys sorted. *)
Definition group_keys (df : DataFrame) : list value :=
  sort_by key_leb (List.filter notnan (unique (col City df))).

(** Line 110: [df.groupby('City')['Estimated AQI'].mean().reset_index()] *)
Definition grouped_df (df : DataFrame) : list (value * option Q) :=
  List.map
    (fun k =>
       (k,
        mean (col Estimated_AQI
                (getitem df (List.map (value_eqb k) (col City df))))))
    (group_keys df).

(** Descending order of the sort column, NaN last. *)
Definition aqi_geb (a b : option Z) : bool :=
  match a, b with
  | Some x, Some y => y <=? x
  | Some _, None => true
  | None, Some _ => false
  | None, None => true
  end.

(** [df.nlargest(n, 'Estimated AQI')]: the first [n] rows of the frame
    ordered by descending value; equal values keep frame order
    ([keep='first']). *)
Definition nlargest (n : nat) (df : DataFrame) : DataFrame :=
  firstn n
    (sort_by (fun a b => aqi_geb (Estimated_AQI a) (Estimated_AQI b)) df).

(** Line 139: [cities[0] if cities else None] *)
Definition default_city (cs : list Py.str) : option Py.str :=
  match cs with
  | c :: _ => Some c
  | [] => None
  end.

Definition default_threshold : Z := 50.

(** Line 142 *)
Definition multi_filter_df (df : DataFrame) : DataFrame :=
  getitem df
    (mask_and (List.map (gt default_threshold) (col Estimated_AQI df))
              (List.map (eq_str (default_city (cities df))) (col City df))).

(** Line 135 *)
Definition moderate_df (df : DataFrame) : DataFrame :=
  getitem df
    (List.map (value_eqb (VStr (Py.lit "Moderate")))
              (col PM25_AQI_Category df)).

(** Line 147: [value_counts()], counts per distinct non-NaN category,
    largest count first. *)
Definition value_counts (s : list value) : list (value * nat) :=
  sort_by (fun a b => Nat.leb (snd b) (snd a))
    (List.map (fun k => (k, count_occ value_eq_dec s k))
              (List.filter notnan (unique s))).

(* ================================================================= *)
(** ** The script as a whole *)

(** What [pd.read_csv] does on the fixed path: it raises
    [FileNotFoundError], raises something else (the class named), or
    returns a frame with its header as read and its records. *)
Inductive read_result : Type :=
| FileNotFoundError
| OtherError (name : string)
| Frame (columns : list Py.str) (records : DataFrame).

Inductive tab : Type := Home | City_View | AQI_Summary | Map_View.

(** The user's selections in the widgets of one run. *)
Record ui : Type := mkUi {
  selected_tab : tab;
  city_choice : nat;
  aqi_threshold : Z;
  map_choice : nat
}.

(** What a run puts on the page, in order.  A table or a map is shown
    with the header of its frame. *)
Inductive widget : Type :=
| Page_config
| Style
| Error (msg : string)
| Warning (msg : string)
| Radio
| Title
| Header (t : tab)
| Subheader (text : string)
| Markdown_intro
| Selectbox (options : list Py.str)
| Slider (lo hi start : Z)
| Multiselect (options : list Py.str)
| Dataframe (columns : list Py.str) (df : DataFrame)
| Bar_chart (data : list (value * option Q))
| Markdown_avg (v : option Q)
| Markdown_max (v : option Z)
| Pyplot_pie (data : list (value * nat))
| Map (columns : list Py.str) (df : DataFrame).

(** Whether [st.dataframe], [st.bar_chart], [ax.pie]/[st.pyplot] and
    [st.map] accept what they are given is decided inside Streamlit and
    matplotlib ([st.map], for one, refuses a row without coordinates):
    the class of the exception such a call raises on its argument, or
    [None] when it draws it. *)
Definition library := widget -> option string.

(** How a run ends: it reaches the end of the script, it calls
    [st.stop()], an exception of the named class leaves the script
    uncaught, or line 61 fails because two columns carry the category
    name (pandas cannot map a selection of two columns; the class of its
    exception depends on the pandas version). *)
Inductive ending : Type :=
| Completed
| Stopped
| Raised (exn : string)
| Raised_on_two_category_columns.

(** A step of the script: the widgets it shows and either its value or
    the early end of the run. *)
Definition Script (A : Type) : Type := (list widget * (A + ending))%type.

Definition ret (A : Type) (a : A) : Script A := ([], inl a).

Definition bind (A B : Type) (m : Script A) (k : A -> Script B) : Script B :=
  match snd m with
  | inl a => (fst m ++ fst (k a), snd (k a))
  | inr e => (fst m, inr e)
  end.

Notation "x <- m ;; k" := (bind m (fun x => k))
  (at level 61, m at next level, right associativity).
Notation "m ;; k" := (bind m (fun _ => k))
  (at level 61, right associativity).

Definition show (w : widget) : Script unit := ([w], inl tt).
Definition st_stop (A : Type) : Script A := ([], inr Stopped).
Definition raise (A : Type) (exn : string) : Script A := ([], inr (Raised exn)).

(** A drawing call: the widget appears unless the library raises. *)
Definition draw (lib : library) (w : widget) : Script unit :=
  match lib w with
  | Some exn => raise _ exn
  | None => show w
  end.

(** The option a selection box returns: the one at the position the
    user picked (a position past the end counts as the last), [None]
    when there is none to choose. *)
Definition chosen (options : list Py.str) (choice : nat) : option Py.str :=
  nth_error options (Nat.min choice (Nat.pred (List.length options))).

(** [st.selectbox(label, options)] *)
Definition selectbox (options : list Py.str) (choice : nat)
  : Script (option Py.str) :=
  show (Selectbox options) ;; ret (chosen options choice).

Definition has_column (name : string) (cols : list Py.str) : bool :=
  existsb (Py.str_eqb (Py.lit name)) cols.

(** How many columns carry the name. *)
Definition count_column (name : string) (cols : list Py.str) : nat :=
  List.length (List.filter (Py.str_eqb (Py.lit name)) cols).

(** Lines 39-44. *)
Definition load (r : read_result) : Script (list Py.str * DataFrame) :=
  match r with
  | Frame columns records => ret (List.map Py.strip columns, records)
  | FileNotFoundError =>
      show (Error "File not found. Please upload the correct file.") ;;
      st_stop _
  | OtherError exn => raise _ exn
  end.

(** Lines 57-62.  With two columns of the category name,
    [df['PM2.5 AQI Category']] is a frame and line 61 fails.  The new
    column is appended to the header unless a column of that name is
    already there. *)
Definition clean (cols : list Py.str) (df : DataFrame)
  : Script (list Py.str * DataFrame) :=
  if negb (has_column "PM2.5 AQI Category" cols) then
    show (Error "'PM2.5 AQI Category' column is missing.") ;;
    st_stop _
  else if (1 <? count_column "PM2.5 AQI Category" cols)%nat then
    ([], inr Raised_on_two_category_columns)
  else
    ret (if has_column "Estimated AQI" cols then cols
         else cols ++ [Py.lit "Estimated AQI"],
         normalize df).

(** Line 65, [df['City'].unique()]: without the column [df['City']]
    raises [KeyError]; with two columns of that name it is a frame,
    which has no [unique]. *)
Definition need_City (cols : list Py.str) : Script unit :=
  match count_column "City" cols with
  | O => raise _ "KeyError"
  | S O => ret tt
  | S (S _) => raise _ "AttributeError"
  end.

(** Lines 96-121. *)
Definition city_view (lib : library) (cols : list Py.str) (df : DataFrame)
    (u : ui) : Script unit :=
  show (Header City_View) ;;
  selected_city <- selectbox (cities df) (city_choice u) ;;
  show (Slider 0 500 100) ;;
  show (Multiselect (skipn 3 cols)) ;;
  let filtered_df := filter_data df selected_city (aqi_threshold u) in
  let grouped := grouped_df df in
  show (Subheader "Filtered Data Table") ;;
  (match filtered_df with
   | [] => show (Warning
       "No data matches your filter. Try a different city or lower the AQI threshold.")
   | _ :: _ => draw lib (Dataframe cols filtered_df)
   end) ;;
  show (Subheader "Average Estimated AQI by City") ;;
  draw lib (Bar_chart grouped).

(** Lines 123-152.  [ax.pie] raises [ValueError] when there is nothing
    to count. *)
Definition aqi_summary (lib : library) (cols : list Py.str) (df : DataFrame)
  : Script unit :=
  show (Header AQI_Summary) ;;
  let summary := get_summary df in
  show (Markdown_avg (fst summary)) ;;
  show (Markdown_max (snd summary)) ;;
  show (Subheader "Top 10 Highest AQI Readings") ;;
  draw lib (Dataframe cols (nlargest 10 df)) ;;
  show (Subheader "Moderate AQI Records") ;;
  draw lib (Dataframe cols (moderate_df df)) ;;
  show (Subheader "Multi-Filtered AQI (by threshold and city)") ;;
  draw lib (Dataframe cols (multi_filter_df df)) ;;
  show (Subheader "AQI Category Distribution (Pie Chart)") ;;
  match value_counts (col PM25_AQI_Category df) with
  | [] => raise _ "ValueError"
  | pie_data => draw lib (Pyplot_pie pie_data)
  end.

(** [rename(columns={"lat": "latitude", "lng": "longitude"})] *)
Definition rename_lat_lng (cols : list Py.str) : list Py.str :=
  List.map
    (fun c =>
       if Py.str_eqb c (Py.lit "lat") then Py.lit "latitude"
       else if Py.str_eqb c (Py.lit "lng") then Py.lit "longitude"
       else c)
    cols.

(** Lines 154-162. *)
Definition map_view (lib : library) (cols : list Py.str) (df : DataFrame)
    (u : ui) : Script unit :=
  show (Header Map_View) ;;
  if has_column "lat" cols && has_column "lng" cols then
    map_city <- selectbox (cities df) (map_choice u) ;;
    draw lib (Map (rename_lat_lng cols)
                  (getitem df (List.map (eq_str map_city) (col City df))))
  else
    show (Warning "Latitude/Longitude data not available in the file.").

(** One run of the script. *)
Definition script (lib : library) (r : read_result) (u : ui) : Script unit :=
  show Page_config ;;
  show Style ;;
  loaded <- load r ;;
  cleaned <- clean (fst loaded) (snd loaded) ;;
  let cols := fst cleaned in
  let df := snd cleaned in
  need_City cols ;;
  show Radio ;;
  match selected_tab u with
  | Home => show Title ;; show (Subheader "Dataset Overview") ;;
            show Markdown_intro
  | City_View => city_view lib cols df u
  | AQI_Summary => aqi_summary lib cols df
  | Map_View => map_view lib cols df u
  end.

Definition ending_of (A : Type) (m : Script A) : ending :=
  match snd m with
  | inl _ => Completed
  | inr e => e
  end.

(** The frame a run of the loader hands to the rest of the script, if
    it gets that far. *)
Definition dataset_of (r : read_result) : option DataFrame :=
  match snd (loaded <- load r ;; clean (fst loaded) (snd loaded)) with
  | inl cleaned => Some (snd cleaned)
  | inr _ => None
  end.

(** A library that draws whatever it is given. *)
Definition draws_all : library := fun _ => None.

(* ================================================================= *)
(** ** Frames as objects

    The script holds [df] by reference, and [df[mask]] makes a new
    frame.  Objects live in a store, addressed by position. *)

Definition store := list DataFrame.
Definition ref := nat.

Definition deref (h : store) (p : ref) : option DataFrame := nth_error h p.

(** A new object, at the next free address. *)
Definition alloc (h : store) (df : DataFrame) : store * ref :=
  (h ++ [df], List.length h).

(** A call [filter_data(df, city, threshold)] with [df] the object [p]:
    the result is a new object. *)
Definition call_filter_data (h : store) (p : ref) (city : option Py.str)
    (threshold : Z) : option (store * ref) :=
  match deref h p with
  | Some df => Some (alloc h (filter_data df city threshold))
  | None => None
  end.

(* ================================================================= *)
(** ** Vocabulary of the statements *)

(** [s] is [l] with some elements left out, order kept. *)
Inductive Subsequence (A : Type) : list A -> list A -> Prop :=
| Subsequence_nil : Subsequence [] []
| Subsequence_keep x s l : Subsequence s l -> Subsequence (x :: s) (x :: l)
| Subsequence_drop x s l : Subsequence s l -> Subsequence s (x :: l).

(** The reading has a defined estimated AQI above [t]. *)
Definition aqi_above (t : Z) (r : row) : Prop :=
  exists z, Estimated_AQI r = Some z /\ t < z.

(** [a] may stand before [b] in descending order of estimated AQI
    (NaN after every number). *)
Definition descending (a b : row) : Prop :=
  match Estimated_AQI a, Estimated_AQI b with
  | Some x, Some y => y <= x
  | Some _, None => True
  | None, Some _ => False
  | None, None => True
  end.

(** Every reading of the frame has a defined estimated AQI. *)
Definition all_defined (df : DataFrame) : Prop :=
  forall r, In r df -> exists z, Estimated_AQI r = Some z.

(** [q] is a float64 number: zero, or a significand of 53 bits at some
    binary exponent. *)
Definition binary64 (q : Q) : Prop :=
  (q == 0)%Q \/
  exists m e,
    2 ^ 52 <= Z.abs m <= 2 ^ 53 /\ (q == inject_Z m * two_power e)%Q.

(** [q] is within float64 rounding of [x]: their distance is at most
    [2 ^ -53] times the size of [x]. *)
Definition float64_close (q x : Q) : Prop :=
  (Qabs (q - x) * inject_Z (2 ^ 53) <= Qabs x)%Q.

(** [q] is the arithmetic mean of the non-empty list [zs] as float64
    gives it: a float64 number within rounding of the exact mean. *)
Definition float64_mean_of (zs : list Z) (q : Q) : Prop :=
  zs <> [] /\
  binary64 q /\
  float64_close q (sum zs # Pos.of_nat (List.length zs)).

(** Following the words of the specification, not the script:
    [filterByCityAndThreshold(ds, city, threshold)] is the records whose
    city equals the given value and whose estimated AQI is greater than
    the threshold. *)
Definition filterByCityAndThreshold_spec (ds : DataFrame) (city : Py.str)
    (threshold : Z) : DataFrame :=
  List.filter
    (fun r =>
       (if value_eq_dec (City r) (VStr city) then true else false)
       && match Estimated_AQI r with
          | Some z => threshold <? z
          | None => false
          end)
    ds.

(** Strict order of strings by code point. *)
Definition str_lt (a b : Py.str) : Prop := Py.ltb a b = true.

(* ================================================================= *)
(** ** Sample data *)

Definition reading (city category : string) : row :=
  mkRow (VStr (Py.lit city)) (VStr (Py.lit category)) None [].

(** Records as read: a missing city, a blank city, a numeric city, an
    unknown and a missing category among them. *)
Definition sample_records : DataFrame :=
  [ reading "Delhi" "Hazardous";
    reading "Oslo" "Good";
    mkRow VNaN (VStr (Py.lit "Moderate")) None [];
    reading "Lima" "Unknown";
    mkRow (VStr (Py.lit "  ")) (VStr (Py.lit "Unhealthy")) None [VNum 3];
    reading "Oslo" "Moderate";
    mkRow (VStr (Py.lit "Pune")) VNaN None [];
    mkRow (VNum 7) (VStr (Py.lit "Very Unhealthy")) None [];
    reading "Delhi" "Unhealthy for Sensitive Groups" ].

Definition sample : DataFrame := normalize sample_records.


(** A reading with a given city and estimated AQI. *)
Definition measured (city : string) (aqi : Z) : row :=
  mkRow (VStr (Py.lit city)) VNaN (Some aqi) [].

(* ================================================================= *)
(** * Properties *)

(** ** Strings and cells *)

Lemma str_eqb_eq (a b : Py.str) : Py.str_eqb a b = true <-> a = b.
Proof.
  unfold Py.str_eqb. destruct (list_eq_dec N.eq_dec a b); split;
    intros; try assumption; try reflexivity; try discriminate; contradiction.
Qed.

Lemma str_eqb_refl (a : Py.str) : Py.str_eqb a a = true.
Proof. apply str_eqb_eq. reflexivity. Qed.

Lemma value_eqb_eq (a b : value) : value_eqb a b = true <-> a = b.
Proof.
  unfold value_eqb. destruct (value_eq_dec a b); split;
    intros; try assumption; try reflexivity; try discriminate; contradiction.
Qed.

Lemma eq_str_true (c : option Py.str) (v : value) :
  eq_str c v = true <-> exists s, c = Some s /\ v = VStr s.
Proof.
  destruct c as [s|], v as [s'| |]; simpl; split; intros H;
    try discriminate; try (destruct H as (x & H1 & H2); discriminate).
  - apply str_eqb_eq in H. subst. exists s. auto.
  - destruct H as (x & H1 & H2). inversion H1; inversion H2; subst.
    apply str_eqb_refl.
Qed.

Lemma gt_true (t : Z) (e : option Z) :
  gt t e = true <-> exists z, e = Some z /\ t < z.
Proof.
  destruct e as [z|]; simpl; split; intros H.
  - exists z. split; [reflexivity | lia].
  - destruct H as (z' & E & L). inversion E; subst. lia.
  - discriminate.
  - destruct H as (z' & E & _). discriminate.
Qed.

(** ** Mask indexing is selection by the row predicate *)

Lemma getitem_map (p : row -> bool) (df : DataFrame) :
  getitem df (List.map p df) = List.filter p df.
Proof.
  induction df as [|r df IH]; simpl; [reflexivity|].
  rewrite IH. reflexivity.
Qed.

Lemma getitem_mask_and (p q : row -> bool) (df : DataFrame) :
  getitem df (mask_and (List.map p df) (List.map q df))
  = List.filter (fun r => p r && q r) df.
Proof.
  induction df as [|r df IH]; simpl; [reflexivity|].
  rewrite IH. reflexivity.
Qed.

Lemma map_col (A B : Type) (f : row -> A) (g : A -> B) (df : DataFrame) :
  List.map g (col f df) = List.map (fun r => g (f r)) df.
Proof. unfold col. apply map_map. Qed.

Lemma filter_data_city (df : DataFrame) (c : Py.str) (t : Z) :
  c <> [] ->
  filter_data df (Some c) t
  = List.filter (fun r => eq_str (Some c) (City r) && gt t (Estimated_AQI r)) df.
Proof.
  intros Hc. unfold filter_data, provided.
  destruct c as [|x c]; [contradiction|]. cbn [Py.truthy].
  rewrite !map_col. apply getitem_mask_and.
Qed.

Lemma filter_data_threshold (df : DataFrame) (city : option Py.str) (t : Z) :
  provided city = false ->
  filter_data df city t = List.filter (fun r => gt t (Estimated_AQI r)) df.
Proof.
  intros Hc. unfold filter_data. rewrite Hc, map_col. apply getitem_map.
Qed.

(** An empty string as city is taken as no city. *)
Lemma filter_data_empty_city (df : DataFrame) (t : Z) :
  filter_data df (Some []) t = filter_data df None t.
Proof. reflexivity. Qed.

(** ** Order-preserving subsequences *)

Lemma Subsequence_filter (A : Type) (p : A -> bool) (l : list A) :
  Subsequence (List.filter p l) l.
Proof.
  induction l as [|x l IH]; simpl.
  - constructor.
  - destruct (p x); constructor; exact IH.
Qed.

Lemma Subsequence_In (A : Type) (s l : list A) :
  Subsequence s l -> forall x, In x s -> In x l.
Proof.
  induction 1 as [|x s l _ IH|x s l _ IH]; simpl; intros y Hy.
  - exact Hy.
  - destruct Hy as [->|Hy]; [left; reflexivity | right; apply IH, Hy].
  - right. apply IH, Hy.
Qed.

Lemma filter_data_is_filter (df : DataFrame) (city : option Py.str) (t : Z) :
  exists p, filter_data df city t = List.filter p df.
Proof.
  destruct (provided city) eqn:E.
  - destruct city as [c|]; [|discriminate].
    exists (fun r => eq_str (Some c) (City r) && gt t (Estimated_AQI r)).
    apply filter_data_city. intros ->. discriminate.
  - eexists. apply filter_data_threshold, E.
Qed.

(** ** Normalisation *)

Lemma Estimated_AQI_assigned (df : DataFrame) (r : row) :
  In r (assign_estimated df) ->
  Estimated_AQI r = map_cell category_to_value (PM25_AQI_Category r).
Proof.
  unfold assign_estimated. rewrite in_map_iff.
  intros (r0 & <- & _). reflexivity.
Qed.

Lemma normalize_In (df : DataFrame) (r : row) :
  In r (normalize df) ->
  Estimated_AQI r = map_cell category_to_value (PM25_AQI_Category r)
  /\ Estimated_AQI r <> None.
Proof.
  unfold normalize, dropna. rewrite filter_In. intros [Hin Hna].
  split.
  - apply Estimated_AQI_assigned with (df := df). exact Hin.
  - unfold notna in Hna. destruct (Estimated_AQI r); [discriminate|discriminate].
Qed.

Lemma normalize_all_defined (df : DataFrame) : all_defined (normalize df).
Proof.
  intros r Hin. apply normalize_In in Hin. destruct Hin as [_ Hd].
  destruct (Estimated_AQI r) as [z|]; [exists z; reflexivity | contradiction].
Qed.

Lemma normalize_filter (df : DataFrame) :
  normalize df = assign_estimated (List.filter (fun r => negb (unmapped r)) df).
Proof.
  unfold normalize, dropna, assign_estimated.
  induction df as [|r df IH]; simpl; [reflexivity|].
  unfold notna at 1, unmapped at 1. simpl.
  destruct (map_cell category_to_value (PM25_AQI_Category r)) eqn:E; simpl;
    rewrite IH, ?E; reflexivity.
Qed.

Lemma filter_partition_length (A : Type) (p : A -> bool) (l : list A) :
  (List.length (List.filter p l)
   + List.length (List.filter (fun x => negb (p x)) l)
   = List.length l)%nat.
Proof.
  induction l as [|x l IH]; simpl; [reflexivity|].
  destruct (p x); simpl; lia.
Qed.

(* ================================================================= *)
(** ** The claims about normalisation *)

(** C1. Every row kept in the normalised frame whose [PM2.5 AQI Category]
    is one of the six category strings has as [Estimated AQI] the
    constant of the table: Good 25, Moderate 75, Unhealthy for Sensitive
    Groups 125, Unhealthy 175, Very Unhealthy 250, Hazardous 350. *)
Theorem estimated_aqi_is_table_constant (df : DataFrame) (r : row) :
  In r (normalize df) ->
  (PM25_AQI_Category r = VStr (Py.lit "Good") ->
   Estimated_AQI r = Some 25) /\
  (PM25_AQI_Category r = VStr (Py.lit "Moderate") ->
   Estimated_AQI r = Some 75) /\
  (PM25_AQI_Category r = VStr (Py.lit "Unhealthy for Sensitive Groups") ->
   Estimated_AQI r = Some 125) /\
  (PM25_AQI_Category r = VStr (Py.lit "Unhealthy") ->
   Estimated_AQI r = Some 175) /\
  (PM25_AQI_Category r = VStr (Py.lit "Very Unhealthy") ->
   Estimated_AQI r = Some 250) /\
  (PM25_AQI_Category r = VStr (Py.lit "Hazardous") ->
   Estimated_AQI r = Some 350).
Proof.
  intros Hin. apply normalize_In in Hin. destruct Hin as [E _].
  repeat split; intros Hc; rewrite E, Hc; reflexivity.
Qed.

Lemma estimated_aqi_is_table_constant_witness :
  In (mkRow (VStr (Py.lit "Oslo")) (VStr (Py.lit "Moderate")) (Some 75) [])
     sample
  /\ Estimated_AQI
       (mkRow (VStr (Py.lit "Oslo")) (VStr (Py.lit "Moderate")) (Some 75) [])
     = Some 75.
Proof.
  assert (H : In (mkRow (VStr (Py.lit "Oslo")) (VStr (Py.lit "Moderate"))
                        (Some 75) []) sample).
  { vm_compute. right. right. right. right. left. reflexivity. }
  split; [exact H|].
  apply (proj1 (proj2 (estimated_aqi_is_table_constant sample_records _ H))).
  reflexivity.
Defined.

(** C2. After normalisation every reading has a defined [Estimated AQI];
    the rows kept are exactly the input rows whose category is a key of
    the table, in order, so every unmapped row is gone and the size is
    the input size minus the number of unmapped rows. *)
Theorem normalize_drops_unmapped (df : DataFrame) :
  all_defined (normalize df) /\
  normalize df
  = assign_estimated (List.filter (fun r => negb (unmapped r)) df) /\
  (forall r, In r (normalize df) -> unmapped r = false) /\
  List.length (normalize df)
  = (List.length df - List.length (List.filter unmapped df))%nat.
Proof.
  split; [|split; [|split]].
  - apply normalize_all_defined.
  - apply normalize_filter.
  - intros r Hin. apply normalize_In in Hin. destruct Hin as [E Hd].
    unfold unmapped. rewrite <- E.
    destruct (Estimated_AQI r); [reflexivity | contradiction].
  - rewrite normalize_filter. unfold assign_estimated. rewrite length_map.
    pose proof (filter_partition_length unmapped df) as P. lia.
Qed.

Lemma normalize_drops_unmapped_witness :
  List.length sample = 7%nat /\
  List.length sample
  = (List.length sample_records
     - List.length (List.filter unmapped sample_records))%nat.
Proof.
  split; [reflexivity|].
  apply (proj2 (proj2 (proj2 (normalize_drops_unmapped sample_records)))).
Defined.

(* ================================================================= *)
(** ** The claims about [filter_data] *)

Lemma filter_nil_iff (A : Type) (p : A -> bool) (l : list A) :
  List.filter p l = [] <-> forall x, In x l -> p x = false.
Proof.
  induction l as [|x l IH]; simpl.
  - split; [intros _ y [] | reflexivity].
  - destruct (p x) eqn:E; split.
    + discriminate.
    + intros H. specialize (H x (or_introl eq_refl)). congruence.
    + intros H y [<-|Hy]; [exact E | apply IH; assumption].
    + intros H. apply IH. intros y Hy. apply H. right. exact Hy.
Qed.

Lemma city_and_above (c : Py.str) (t : Z) (r : row) :
  eq_str (Some c) (City r) && gt t (Estimated_AQI r) = true
  <-> City r = VStr c /\ aqi_above t r.
Proof.
  rewrite andb_true_iff, eq_str_true, gt_true. unfold aqi_above.
  split.
  - intros [(s & Es & Ec) H]. inversion Es; subst. auto.
  - intros [Ec H]. split; [exists c; auto | exact H].
Qed.

(** The example of the specification: of (CityA, 80), (CityA, 40) and
    (CityB, 90), only (CityA, 80) is in CityA above 50. *)
Example filter_data_CityA_50 :
  filter_data [measured "CityA" 80; measured "CityA" 40; measured "CityB" 90]
              (Some (Py.lit "CityA")) 50
  = [measured "CityA" 80].
Proof. reflexivity. Qed.

(** C3. With a city given (not [None], not the empty string)
    [filter_data] returns exactly the records of that city whose
    estimated AQI is strictly above the threshold; with the city omitted
    ([None], or the empty string, which counts as omitted), exactly the
    records strictly above the threshold; and when nothing matches the
    result is the empty frame. *)
Theorem filter_data_selects (df : DataFrame) (t : Z) :
  (forall c, c <> [] ->
     exists p,
       (forall r, p r = true <-> City r = VStr c /\ aqi_above t r) /\
       filter_data df (Some c) t = List.filter p df) /\
  (forall city, city = None \/ city = Some [] ->
     exists p,
       (forall r, p r = true <-> aqi_above t r) /\
       filter_data df city t = List.filter p df) /\
  (forall c, c <> [] ->
     (forall r, In r df -> ~ (City r = VStr c /\ aqi_above t r)) ->
     filter_data df (Some c) t = []) /\
  (forall city, city = None \/ city = Some [] ->
     (forall r, In r df -> ~ aqi_above t r) -> filter_data df city t = []).
Proof.
  assert (O : forall city, city = None \/ city = Some [] ->
                           provided city = false).
  { intros city [->| ->]; reflexivity. }
  split; [|split; [|split]].
  - intros c Hc.
    exists (fun r => eq_str (Some c) (City r) && gt t (Estimated_AQI r)).
    split; [intros r; apply city_and_above | apply filter_data_city, Hc].
  - intros city Hcity. exists (fun r => gt t (Estimated_AQI r)).
    split; [intros r; apply gt_true | apply filter_data_threshold, O, Hcity].
  - intros c Hc Hnone. rewrite filter_data_city by exact Hc.
    apply filter_nil_iff. intros r Hr.
    apply not_true_is_false. rewrite city_and_above. apply Hnone, Hr.
  - intros city Hcity Hnone.
    rewrite filter_data_threshold by (apply O, Hcity).
    apply filter_nil_iff. intros r Hr.
    apply not_true_is_false. rewrite gt_true. apply Hnone, Hr.
Qed.

Lemma filter_data_selects_witness :
  (Py.lit "CityA" <> [] /\
   exists p,
     (forall r, p r = true <->
                City r = VStr (Py.lit "CityA") /\ aqi_above 50 r) /\
     filter_data [measured "CityA" 80; measured "CityA" 40; measured "CityB" 90]
                 (Some (Py.lit "CityA")) 50
     = List.filter p
         [measured "CityA" 80; measured "CityA" 40; measured "CityB" 90]) /\
  (exists p,
     (forall r, p r = true <-> aqi_above 50 r) /\
     filter_data [measured "" 80; measured "CityA" 40; measured "CityB" 90]
                 (Some []) 50
     = List.filter p
         [measured "" 80; measured "CityA" 40; measured "CityB" 90] /\
     List.filter p [measured "" 80; measured "CityA" 40; measured "CityB" 90]
     = [measured "" 80; measured "CityB" 90]).
Proof.
  split.
  - split; [discriminate|].
    apply (proj1 (filter_data_selects
                    [measured "CityA" 80; measured "CityA" 40;
                     measured "CityB" 90] 50)).
    discriminate.
  - destruct (proj1 (proj2 (filter_data_selects
                              [measured "" 80; measured "CityA" 40;
                               measured "CityB" 90] 50))
                (Some []) (or_intror eq_refl)) as (p & Hp & E).
    exists p. split; [exact Hp|]. split; [exact E|].
    rewrite <- E. reflexivity.
Defined.

Lemma nth_error_app_old (A : Type) (h : list A) (x : A) (p : nat) :
  (p < List.length h)%nat -> nth_error (h ++ [x]) p = nth_error h p.
Proof. intros H. apply nth_error_app1, H. Qed.

(** C10. [filter_data] returns an order-preserving subsequence of its
    input: every row returned is a row of the input, in the same
    relative order; and the call leaves the input frame (and every other
    object) as it was, its result being a new object. *)
Theorem filter_data_subsequence (df : DataFrame) (city : option Py.str)
    (t : Z) :
  Subsequence (filter_data df city t) df /\
  (forall r, In r (filter_data df city t) -> In r df) /\
  (forall (h : store) (p : ref),
     deref h p = Some df ->
     exists h' q,
       call_filter_data h p city t = Some (h', q) /\
       deref h' q = Some (filter_data df city t) /\
       q <> p /\
       deref h' p = Some df /\
       (forall p', (p' < List.length h)%nat -> deref h' p' = deref h p')).
Proof.
  assert (S : Subsequence (filter_data df city t) df).
  { destruct (filter_data_is_filter df city t) as [p ->].
    apply Subsequence_filter. }
  split; [exact S|]. split; [apply Subsequence_In, S|].
  intros h p Hp. unfold call_filter_data, alloc. rewrite Hp.
  assert (L : (p < List.length h)%nat).
  { apply nth_error_Some. unfold deref in Hp. congruence. }
  eexists. eexists. split; [reflexivity|]. unfold deref in *.
  split; [|split; [|split]].
  - rewrite nth_error_app2 by lia. rewrite Nat.sub_diag. reflexivity.
  - lia.
  - rewrite nth_error_app_old by exact L. exact Hp.
  - intros p' Hp'. apply nth_error_app_old, Hp'.
Qed.

Lemma filter_data_subsequence_witness :
  deref [sample] 0%nat = Some sample /\
  exists h' q,
    call_filter_data [sample] 0%nat (Some (Py.lit "Oslo")) 50 = Some (h', q) /\
    deref h' q = Some (filter_data sample (Some (Py.lit "Oslo")) 50) /\
    q <> 0%nat /\
    deref h' 0%nat = Some sample /\
    (forall p', (p' < List.length [sample])%nat ->
                deref h' p' = deref [sample] p').
Proof.
  split; [reflexivity|].
  apply (proj2 (proj2 (filter_data_subsequence sample
                         (Some (Py.lit "Oslo")) 50)) [sample] 0%nat).
  reflexivity.
Defined.

(* ================================================================= *)
(** ** Facts about sorting *)

Section SortFacts.
Variable A : Type.
Variable le : A -> A -> bool.

Lemma insert_perm (x : A) (l : list A) : Permutation (x :: l) (insert le x l).
Proof.
  induction l as [|y l IH]; simpl.
  - apply Permutation_refl.
  - destruct (le x y).
    + apply Permutation_refl.
    + eapply perm_trans; [apply perm_swap|]. apply perm_skip, IH.
Qed.

Lemma sort_by_perm (l : list A) : Permutation l (sort_by le l).
Proof.
  induction l as [|x l IH]; simpl.
  - apply perm_nil.
  - eapply perm_trans; [apply perm_skip, IH | apply insert_perm].
Qed.

Lemma sort_by_length (l : list A) :
  List.length (sort_by le l) = List.length l.
Proof. symmetry. apply Permutation_length, sort_by_perm. Qed.

Lemma sort_by_In (l : list A) (x : A) : In x (sort_by le l) <-> In x l.
Proof.
  split; intros H.
  - eapply Permutation_in; [apply Permutation_sym, sort_by_perm | exact H].
  - eapply Permutation_in; [apply sort_by_perm | exact H].
Qed.

Hypothesis le_total : forall a b, le a b = false -> le b a = true.

Lemma insert_sorted (x : A) (l : list A) :
  Sorted (fun a b => le a b = true) l ->
  Sorted (fun a b => le a b = true) (insert le x l).
Proof.
  induction 1 as [|y l Hs IH Hhd]; simpl.
  - repeat constructor.
  - destruct (le x y) eqn:E.
    + constructor; [constructor; assumption | constructor; exact E].
    + constructor; [exact IH|].
      destruct l as [|z l]; simpl.
      * constructor. apply le_total, E.
      * destruct (le x z); constructor.
        -- apply le_total, E.
        -- inversion Hhd; assumption.
Qed.

Lemma sort_by_sorted (l : list A) :
  Sorted (fun a b => le a b = true) (sort_by le l).
Proof.
  induction l as [|x l IH]; simpl; [constructor | apply insert_sorted, IH].
Qed.

Hypothesis le_trans :
  forall a b c, le a b = true -> le b c = true -> le a c = true.

Lemma sort_by_strongly_sorted (l : list A) :
  StronglySorted (fun a b => le a b = true) (sort_by le l).
Proof.
  apply Sorted_StronglySorted; [|apply sort_by_sorted].
  intros a b c. apply le_trans.
Qed.

End SortFacts.

(** ** The order of strings *)

Lemma ltb_cons (x y : N) (a b : Py.str) :
  Py.ltb (x :: a) (y :: b) = true
  <-> (x < y)%N \/ (x = y /\ Py.ltb a b = true).
Proof.
  simpl. destruct (N.ltb_spec x y) as [L|L].
  - split; [intros _; left; exact L | reflexivity].
  - destruct (N.eqb_spec x y) as [E|E].
    + split; [intros H; right; auto | intros [H|[_ H]]; [lia | exact H]].
    + split; [discriminate | intros [H|[H _]]; [lia | contradiction]].
Qed.

Lemma ltb_irrefl (a : Py.str) : Py.ltb a a = false.
Proof.
  induction a as [|x a IH]; [reflexivity|].
  apply not_true_is_false. rewrite ltb_cons. intros [H|[_ H]]; [lia | congruence].
Qed.

Lemma ltb_trans (a b c : Py.str) :
  Py.ltb a b = true -> Py.ltb b c = true -> Py.ltb a c = true.
Proof.
  revert b c. induction a as [|x a IH]; intros [|y b] [|z c]; simpl;
    try discriminate; try reflexivity.
  change (Py.ltb (x :: a) (y :: b) = true -> Py.ltb (y :: b) (z :: c) = true ->
          Py.ltb (x :: a) (z :: c) = true).
  rewrite !ltb_cons. intros [H1|[E1 H1]] [H2|[E2 H2]].
  - left. lia.
  - left. lia.
  - left. lia.
  - right. split; [congruence | eapply IH; eassumption].
Qed.

Lemma ltb_connex (a b : Py.str) :
  Py.ltb a b = false -> Py.ltb b a = false -> a = b.
Proof.
  revert b. induction a as [|x a IH]; intros [|y b]; simpl;
    try discriminate; try reflexivity.
  change (Py.ltb (x :: a) (y :: b) = false -> Py.ltb (y :: b) (x :: a) = false ->
          x :: a = y :: b).
  intros H1 H2.
  apply not_true_iff_false in H1. apply not_true_iff_false in H2.
  rewrite ltb_cons in H1. rewrite ltb_cons in H2.
  assert (E : x = y).
  { destruct (N.lt_trichotomy x y) as [L|[L|L]];
      [exfalso; apply H1; left; exact L | exact L
      | exfalso; apply H2; left; exact L]. }
  subst y. f_equal. apply IH.
  - apply not_true_is_false. intros H. apply H1. right. auto.
  - apply not_true_is_false. intros H. apply H2. right. auto.
Qed.

Lemma ltb_asym (a b : Py.str) : Py.ltb a b = true -> Py.ltb b a = false.
Proof.
  intros H. apply not_true_is_false. intros H'.
  pose proof (ltb_trans _ _ _ H H') as C. rewrite ltb_irrefl in C. discriminate.
Qed.

Lemma leb_total (a b : Py.str) : Py.leb a b = false -> Py.leb b a = true.
Proof.
  unfold Py.leb. intros H. apply negb_false_iff in H.
  apply negb_true_iff, ltb_asym, H.
Qed.

Lemma leb_trans (a b c : Py.str) :
  Py.leb a b = true -> Py.leb b c = true -> Py.leb a c = true.
Proof.
  unfold Py.leb. rewrite !negb_true_iff. intros H1 H2.
  apply not_true_is_false. intros H3.
  destruct (Py.ltb a b) eqn:E.
  - pose proof (ltb_trans _ _ _ H3 E). congruence.
  - pose proof (ltb_connex _ _ E H1). subst b. congruence.
Qed.

Lemma leb_neq_lt (a b : Py.str) : Py.leb a b = true -> a <> b -> str_lt a b.
Proof.
  unfold Py.leb, str_lt. rewrite negb_true_iff. intros H N.
  destruct (Py.ltb a b) eqn:E; [reflexivity|].
  exfalso. apply N. apply ltb_connex; assumption.
Qed.

(** Upper case sorts before lower case: the order is by code point. *)
Example str_lt_case_sensitive :
  str_lt (Py.lit "Zurich") (Py.lit "amsterdam") /\
  str_lt (Py.lit "Oslo") (Py.lit "oslo").
Proof. split; reflexivity. Qed.

(** ** Stripping whitespace *)

Lemma lstrip_nil (s : Py.str) :
  Py.lstrip s = [] <-> forall c, In c s -> Py.isspace c = true.
Proof.
  induction s as [|x s IH]; simpl.
  - split; [intros _ c [] | reflexivity].
  - destruct (Py.isspace x) eqn:E.
    + rewrite IH. split.
      * intros H c [<-|Hc]; [exact E | apply H, Hc].
      * intros H c Hc. apply H. right. exact Hc.
    + split; [discriminate|].
      intros H. specialize (H x (or_introl eq_refl)). congruence.
Qed.

Lemma lstrip_head (s : Py.str) (c : N) (t : Py.str) :
  Py.lstrip s = c :: t -> Py.isspace c = false /\ In c s.
Proof.
  induction s as [|x s IH]; simpl; [discriminate|].
  destruct (Py.isspace x) eqn:E.
  - intros H. destruct (IH H) as [H1 H2]. auto.
  - intros H. inversion H; subst. auto.
Qed.

Lemma strip_nil (s : Py.str) :
  Py.strip s = [] <-> forall c, In c s -> Py.isspace c = true.
Proof.
  unfold Py.strip, Py.rstrip. split.
  - intros H.
    assert (H1 : Py.lstrip (rev (Py.lstrip s)) = []).
    { destruct (Py.lstrip (rev (Py.lstrip s))) as [|y l]; [reflexivity|].
      simpl in H. destruct (rev l); discriminate. }
    rewrite lstrip_nil in H1.
    apply lstrip_nil.
    destruct (Py.lstrip s) as [|c t] eqn:E; [reflexivity|].
    apply lstrip_head in E. destruct E as [E _].
    specialize (H1 c). rewrite <- in_rev in H1.
    specialize (H1 (or_introl eq_refl)). congruence.
  - intros H. apply lstrip_nil in H. rewrite H. reflexivity.
Qed.

Lemma strip_not_nil (s : Py.str) :
  Py.strip s <> [] <-> exists c, In c s /\ Py.isspace c = false.
Proof.
  rewrite strip_nil. split.
  - intros H.
    induction s as [|x s IH].
    + exfalso. apply H. intros c [].
    + destruct (Py.isspace x) eqn:E.
      * destruct IH as (c & Hc & Hs).
        { intros H'. apply H. intros c [<-|Hc]; [exact E | apply H', Hc]. }
        exists c. split; [right; exact Hc | exact Hs].
      * exists x. split; [left; reflexivity | exact E].
  - intros (c & Hc & Hs) H. specialize (H c Hc). congruence.
Qed.

(** ** Distinct values *)

Lemma existsb_value_eqb (v : value) (l : list value) :
  existsb (value_eqb v) l = true <-> In v l.
Proof.
  rewrite existsb_exists. split.
  - intros (x & Hx & E). apply value_eqb_eq in E. subst. exact Hx.
  - intros H. exists v. split; [exact H | apply value_eqb_eq; reflexivity].
Qed.

Lemma unique_from_In (seen l : list value) (v : value) :
  In v (unique_from seen l) <-> In v l /\ ~ In v seen.
Proof.
  revert seen. induction l as [|x l IH]; intros seen; simpl.
  - tauto.
  - destruct (existsb (value_eqb x) seen) eqn:E.
    + apply existsb_value_eqb in E. rewrite IH. split.
      * intros [H1 H2]. auto.
      * intros [[->|H1] H2]; [contradiction | auto].
    + assert (Hx : ~ In x seen).
      { rewrite <- existsb_value_eqb. congruence. }
      simpl. rewrite IH. simpl. split.
      * intros [->|[H1 H2]]; [auto | split; [auto | tauto]].
      * intros [[->|H1] H2]; [auto|].
        destruct (value_eq_dec x v) as [->|N]; [auto|].
        right. split; [exact H1 | intros [H|H]; auto].
Qed.

Lemma unique_from_NoDup (seen l : list value) : NoDup (unique_from seen l).
Proof.
  revert seen. induction l as [|x l IH]; intros seen; simpl.
  - constructor.
  - destruct (existsb (value_eqb x) seen); [apply IH|].
    constructor; [|apply IH].
    rewrite unique_from_In. intros [_ H]. apply H. left. reflexivity.
Qed.

Lemma unique_In (l : list value) (v : value) : In v (unique l) <-> In v l.
Proof. unfold unique. rewrite unique_from_In. simpl. tauto. Qed.

Lemma unique_NoDup (l : list value) : NoDup (unique l).
Proof. apply unique_from_NoDup. Qed.

(** ** The city list *)

Lemma city_name_In (v : value) (s : Py.str) :
  In s (city_name v) <-> v = VStr s /\ Py.strip s <> [].
Proof.
  destruct v as [s'| |]; simpl;
    try (split; [intros [] | intros [H _]; discriminate]).
  destruct (Py.str_eqb (Py.strip s') []) eqn:E; simpl.
  - apply str_eqb_eq in E. split; [intros [] |].
    intros [H N]. inversion H; subst. contradiction.
  - assert (N : Py.strip s' <> []).
    { intros H. apply str_eqb_eq in H. congruence. }
    split.
    + intros [<-|[]]. auto.
    + intros [H _]. inversion H. left. reflexivity.
Qed.

Lemma city_names_NoDup (l : list value) :
  NoDup l -> NoDup (flat_map city_name l).
Proof.
  induction 1 as [|v l Hv Hl IH]; simpl; [constructor|].
  destruct (city_name v) as [|s rest] eqn:E; simpl; [exact IH|].
  assert (Hs : In s (city_name v)) by (rewrite E; left; reflexivity).
  apply city_name_In in Hs. destruct Hs as [-> _].
  assert (rest = []) as ->.
  { simpl in E. destruct (negb _); inversion E; reflexivity. }
  simpl. constructor; [|exact IH].
  rewrite in_flat_map. intros (v' & Hv' & Hin).
  apply city_name_In in Hin. destruct Hin as [-> _]. contradiction.
Qed.

Lemma cities_In (df : DataFrame) (s : Py.str) :
  In s (cities df) <-> In (VStr s) (col City df) /\ Py.strip s <> [].
Proof.
  unfold cities, sorted. rewrite sort_by_In, in_flat_map. split.
  - intros (v & Hv & Hs). apply city_name_In in Hs. destruct Hs as [-> N].
    rewrite unique_In in Hv. split; assumption.
  - intros [H N]. exists (VStr s). split; [apply unique_In, H|].
    apply city_name_In. auto.
Qed.

Lemma cities_not_empty_string (df : DataFrame) (s : Py.str) :
  In s (cities df) -> s <> [].
Proof.
  intros H. apply cities_In in H. destruct H as [_ N].
  intros ->. apply N. reflexivity.
Qed.

Lemma cities_NoDup (df : DataFrame) : NoDup (cities df).
Proof.
  unfold cities, sorted.
  eapply Permutation_NoDup; [apply sort_by_perm|].
  apply city_names_NoDup, unique_NoDup.
Qed.

Lemma strongly_sorted_strict (l : list Py.str) :
  NoDup l ->
  StronglySorted (fun a b => Py.leb a b = true) l ->
  StronglySorted str_lt l.
Proof.
  induction 2 as [|x l Hs IH Hall]; constructor.
  - apply IH. inversion H; assumption.
  - inversion H as [|? ? Hx Hl]; subst.
    rewrite Forall_forall in *. intros y Hy.
    apply leb_neq_lt; [apply Hall, Hy | intros ->; contradiction].
Qed.

Example cities_sample :
  cities sample = [Py.lit "Delhi"; Py.lit "Oslo"].
Proof. reflexivity. Qed.

(** C5. The city list holds every distinct [City] value that is a string
    with at least one non-whitespace character, and nothing else: no
    value that is not a string (none is converted), no empty or blank
    string, no duplicate; it is in strictly ascending order by code
    point. *)
Theorem cities_distinct_sorted (df : DataFrame) :
  (forall s,
     In s (cities df) <->
     In (VStr s) (col City df) /\
     exists c, In c s /\ Py.isspace c = false) /\
  NoDup (cities df) /\
  StronglySorted str_lt (cities df).
Proof.
  split; [|split].
  - intros s. rewrite cities_In, strip_not_nil. reflexivity.
  - apply cities_NoDup.
  - apply strongly_sorted_strict; [apply cities_NoDup|].
    unfold cities, sorted. apply sort_by_strongly_sorted.
    + apply leb_total.
    + apply leb_trans.
Qed.

(* ================================================================= *)
(** ** The fixed display of the summary tab *)

Lemma filter_ext_in_row (p q : row -> bool) (df : DataFrame) :
  (forall r, p r = q r) -> List.filter p df = List.filter q df.
Proof. intros H. apply filter_ext. exact H. Qed.

Lemma multi_filter_df_filter (df : DataFrame) :
  multi_filter_df df
  = List.filter
      (fun r => gt default_threshold (Estimated_AQI r)
                && eq_str (default_city (cities df)) (City r)) df.
Proof. unfold multi_filter_df. rewrite !map_col. apply getitem_mask_and. Qed.

Lemma spec_filter_agrees (c : Py.str) (t : Z) (r : row) :
  (if value_eq_dec (City r) (VStr c) then true else false)
  && match Estimated_AQI r with Some z => t <? z | None => false end
  = eq_str (Some c) (City r) && gt t (Estimated_AQI r).
Proof.
  f_equal.
  - destruct (value_eq_dec (City r) (VStr c)) as [E|N].
    + rewrite E. simpl. symmetry. apply str_eqb_refl.
    + symmetry. apply not_true_is_false. rewrite eq_str_true.
      intros (s & Es & Ec). inversion Es; subst. contradiction.
  - destruct (Estimated_AQI r) as [z|]; simpl; [|reflexivity].
    destruct (Z.ltb_spec t z), (Z.gtb_spec z t); try reflexivity; lia.
Qed.

(** C9. When the city list is not empty, the fixed display shows exactly
    the records whose city is the first of the city list and whose
    estimated AQI is strictly above 50; that is what the specification's
    [filterByCityAndThreshold] describes, and it is the result of
    [filter_data] with that city and threshold 50. *)
Theorem multi_filter_df_is_filter_data (df : DataFrame) :
  cities df <> [] ->
  exists c,
    List.hd_error (cities df) = Some c /\
    (exists p,
       (forall r, p r = true <-> City r = VStr c /\ aqi_above 50 r) /\
       multi_filter_df df = List.filter p df) /\
    multi_filter_df df = filterByCityAndThreshold_spec df c 50 /\
    multi_filter_df df = filter_data df (Some c) 50.
Proof.
  intros Hne. destruct (cities df) as [|c rest] eqn:E; [contradiction|].
  exists c. split; [reflexivity|].
  assert (Hc : c <> []).
  { apply cities_not_empty_string with (df := df). rewrite E. left. reflexivity. }
  assert (M : multi_filter_df df
              = List.filter (fun r => eq_str (Some c) (City r)
                                      && gt 50 (Estimated_AQI r)) df).
  { rewrite multi_filter_df_filter, E. simpl.
    apply filter_ext_in_row. intros r. apply andb_comm. }
  split; [|split].
  - eexists. split; [|exact M]. intros r. apply city_and_above.
  - rewrite M. unfold filterByCityAndThreshold_spec.
    apply filter_ext_in_row. intros r. symmetry. apply spec_filter_agrees.
  - rewrite M. symmetry. apply filter_data_city, Hc.
Qed.

Lemma multi_filter_df_is_filter_data_witness :
  cities sample <> [] /\
  exists c,
    List.hd_error (cities sample) = Some c /\
    (exists p,
       (forall r, p r = true <-> City r = VStr c /\ aqi_above 50 r) /\
       multi_filter_df sample = List.filter p sample) /\
    multi_filter_df sample = filterByCityAndThreshold_spec sample c 50 /\
    multi_filter_df sample = filter_data sample (Some c) 50.
Proof.
  assert (H : cities sample <> []) by (vm_compute; discriminate).
  split; [exact H|].
  apply (multi_filter_df_is_filter_data sample H).
Defined.


(* ================================================================= *)
(** ** The largest readings *)

Lemma aqi_geb_descending (a b : row) :
  aqi_geb (Estimated_AQI a) (Estimated_AQI b) = true <-> descending a b.
Proof.
  unfold descending, aqi_geb.
  destruct (Estimated_AQI a), (Estimated_AQI b);
    try (split; [trivial | reflexivity]);
    try (split; [discriminate | contradiction]).
  apply Z.leb_le.
Qed.

Lemma aqi_geb_total (a b : option Z) : aqi_geb a b = false -> aqi_geb b a = true.
Proof.
  destruct a, b; simpl; try reflexivity; try discriminate.
  rewrite Z.leb_gt, Z.leb_le. lia.
Qed.

Lemma aqi_geb_trans (a b c : option Z) :
  aqi_geb a b = true -> aqi_geb b c = true -> aqi_geb a c = true.
Proof.
  destruct a, b, c; simpl; try reflexivity; try discriminate.
  rewrite !Z.leb_le. lia.
Qed.

Lemma StronglySorted_app_inv (A : Type) (R : A -> A -> Prop) (l1 l2 : list A) :
  StronglySorted R (l1 ++ l2) ->
  StronglySorted R l1 /\ forall a b, In a l1 -> In b l2 -> R a b.
Proof.
  induction l1 as [|x l1 IH]; simpl; intros H.
  - split; [constructor | intros a b []].
  - inversion H as [|? ? Hs Hall]; subst.
    destruct (IH Hs) as [S1 C]. rewrite Forall_forall in Hall. split.
    + constructor; [exact S1|]. rewrite Forall_forall.
      intros y Hy. apply Hall, in_or_app. left. exact Hy.
    + intros a b [<-|Ha] Hb.
      * apply Hall, in_or_app. right. exact Hb.
      * apply C; assumption.
Qed.

Lemma StronglySorted_impl (A : Type) (R S : A -> A -> Prop) (l : list A) :
  (forall a b, R a b -> S a b) -> StronglySorted R l -> StronglySorted S l.
Proof.
  intros H. induction 1 as [|x l Hs IH Hall]; constructor; [exact IH|].
  rewrite Forall_forall in *. intros y Hy. apply H, Hall, Hy.
Qed.

Lemma sorted_rows_descending (df : DataFrame) :
  StronglySorted descending
    (sort_by (fun a b => aqi_geb (Estimated_AQI a) (Estimated_AQI b)) df).
Proof.
  eapply StronglySorted_impl; [intros a b; apply aqi_geb_descending|].
  apply sort_by_strongly_sorted.
  - intros a b. apply aqi_geb_total.
  - intros a b c. apply aqi_geb_trans.
Qed.

(** C6. [nlargest n] returns min(n, size) records of the frame, in
    descending order of estimated AQI, none of them below a record left
    out; on readings with values 350, 25, 175, 75 and n = 2 it returns
    the readings with 350 and 175, in that order. *)
Theorem nlargest_top (n : nat) (df : DataFrame) :
  List.length (nlargest n df) = Nat.min n (List.length df) /\
  StronglySorted descending (nlargest n df) /\
  (exists rest,
     Permutation df (nlargest n df ++ rest) /\
     forall a b, In a (nlargest n df) -> In b rest -> descending a b) /\
  (forall a b c d : row,
     nlargest 2 [set_Estimated_AQI a (Some 350); set_Estimated_AQI b (Some 25);
                 set_Estimated_AQI c (Some 175); set_Estimated_AQI d (Some 75)]
     = [set_Estimated_AQI a (Some 350); set_Estimated_AQI c (Some 175)]).
Proof.
  unfold nlargest.
  set (s := sort_by (fun a b => aqi_geb (Estimated_AQI a) (Estimated_AQI b)) df).
  assert (S : StronglySorted descending (firstn n s ++ skipn n s)).
  { rewrite firstn_skipn. apply sorted_rows_descending. }
  apply StronglySorted_app_inv in S. destruct S as [S1 S2].
  split; [|split; [|split]].
  - rewrite length_firstn. unfold s. rewrite sort_by_length. reflexivity.
  - exact S1.
  - exists (skipn n s). split; [|exact S2].
    rewrite firstn_skipn. apply sort_by_perm.
  - intros a b c d. reflexivity.
Qed.

Lemma nlargest_top_witness :
  List.length (nlargest 2 [measured "a" 350; measured "b" 25;
                           measured "c" 175; measured "d" 75]) = 2%nat /\
  nlargest 2 [measured "a" 350; measured "b" 25;
              measured "c" 175; measured "d" 75]
  = [measured "a" 350; measured "c" 175].
Proof.
  split.
  - apply (proj1 (nlargest_top 2 [measured "a" 350; measured "b" 25;
                                  measured "c" 175; measured "d" 75])).
  - apply (proj2 (proj2 (proj2 (nlargest_top 2 [])))
             (measured "a" 350) (measured "b" 25)
             (measured "c" 175) (measured "d" 75)).
Defined.

(* ================================================================= *)
(** ** Mean and maximum *)

Lemma values_map_Some (zs : list Z) : values (List.map Some zs) = zs.
Proof.
  unfold values. induction zs as [|z zs IH]; simpl; [reflexivity|].
  f_equal. exact IH.
Qed.

Lemma all_defined_col (df : DataFrame) :
  all_defined df ->
  col Estimated_AQI df = List.map Some (values (col Estimated_AQI df)).
Proof.
  unfold col, values. induction df as [|r df IH]; intros H; simpl.
  - reflexivity.
  - destruct (H r (or_introl eq_refl)) as [z E]. rewrite E. simpl.
    f_equal. apply IH. intros r' Hr'. apply H. right. exact Hr'.
Qed.

Lemma all_defined_filter (p : row -> bool) (df : DataFrame) :
  all_defined df -> all_defined (List.filter p df).
Proof.
  intros H r Hr. apply filter_In in Hr. apply H. apply Hr.
Qed.

(** *** The float64 quotient

    It is a float64 number, within rounding of the exact quotient. *)

Lemma round_half_even_close (n d : Z) :
  0 < d -> 2 * Z.abs (round_half_even n d * d - n) <= d.
Proof.
  intros Hd. unfold round_half_even.
  pose proof (Z.div_mod n d ltac:(lia)) as E.
  pose proof (Z.mod_pos_bound n d Hd) as B.
  destruct (Z.compare_spec (2 * (n mod d)) d) as [C|C|C].
  - destruct (Z.even (n / d)); nia.
  - nia.
  - nia.
Qed.

Lemma scale_den_pos (b e : Z) : 0 < b -> 0 < scale_den b e.
Proof.
  intros Hb. unfold scale_den. destruct (Z.ltb_spec e 0); [exact Hb|].
  apply Z.mul_pos_pos; [exact Hb|]. apply Z.pow_pos_nonneg; lia.
Qed.

Lemma scale_step (a b e : Z) :
  0 < a -> 0 < b ->
  scale_num a e * scale_den b (e + 1) = 2 * scale_num a (e + 1) * scale_den b e.
Proof.
  intros Ha Hb. unfold scale_num, scale_den.
  destruct (Z.ltb_spec e 0), (Z.ltb_spec (e + 1) 0); try lia.
  - replace (- e) with (Z.succ (- (e + 1))) by lia.
    rewrite Z.pow_succ_r by lia. ring.
  - assert (e = -1) by lia. subst e.
    change (2 ^ (- -1)) with 2. change (2 ^ (-1 + 1)) with 1. ring.
  - replace (e + 1) with (Z.succ e) by lia.
    rewrite Z.pow_succ_r by lia. ring.
Qed.

Lemma first_guess_bounds (a b : Z) :
  0 < a -> 0 < b ->
  let e := Z.log2 a - Z.log2 b - 53 in
  2 ^ 52 * scale_den b e < scale_num a e /\
  scale_num a e < 2 ^ 54 * scale_den b e.
Proof.
  intros Ha Hb e.
  pose proof (Z.log2_spec a Ha) as [A1 A2].
  pose proof (Z.log2_spec b Hb) as [B1 B2].
  pose proof (Z.log2_nonneg a) as La. pose proof (Z.log2_nonneg b) as Lb.
  set (la := Z.log2 a) in *. set (lb := Z.log2 b) in *.
  rewrite Z.pow_succ_r in A2, B2 by lia.
  assert (Pa : 0 < 2 ^ la) by (apply Z.pow_pos_nonneg; lia).
  assert (Pb : 0 < 2 ^ lb) by (apply Z.pow_pos_nonneg; lia).
  unfold scale_num, scale_den. destruct (Z.ltb_spec e 0) as [Hn|Hn].
  - (* 2^(-e) * 2^la = 2^53 * 2^lb *)
    assert (P : 2 ^ (- e) * 2 ^ la = 2 ^ 53 * 2 ^ lb).
    { rewrite <- !Z.pow_add_r by lia. f_equal. unfold e. lia. }
    assert (Pe : 0 < 2 ^ (- e)) by (apply Z.pow_pos_nonneg; lia).
    split; nia.
  - assert (P : 2 ^ e * (2 ^ 53 * 2 ^ lb) = 2 ^ la).
    { rewrite <- !Z.pow_add_r by lia. f_equal. unfold e. lia. }
    assert (Pe : 0 < 2 ^ e) by (apply Z.pow_pos_nonneg; lia).
    split; nia.
Qed.

Lemma last_place_bounds (a b : Z) :
  0 < a -> 0 < b ->
  2 ^ 52 * scale_den b (last_place a b) <= scale_num a (last_place a b) /\
  scale_num a (last_place a b) < 2 ^ 53 * scale_den b (last_place a b).
Proof.
  intros Ha Hb. unfold last_place.
  pose proof (@first_guess_bounds a b Ha Hb) as [L U]. cbv zeta in L, U.
  set (e := Z.log2 a - Z.log2 b - 53) in *.
  pose proof (@scale_step a b e Ha Hb) as S.
  pose proof (@scale_den_pos b e Hb) as D0.
  pose proof (@scale_den_pos b (e + 1) Hb) as D1.
  destruct (Z.leb_spec (2 ^ 53 * scale_den b e) (scale_num a e)) as [T|T].
  - split; nia.
  - split; lia.
Qed.

Lemma round_half_even_range (n d : Z) :
  0 < d -> 2 ^ 52 * d <= n -> n < 2 ^ 53 * d ->
  2 ^ 52 <= round_half_even n d <= 2 ^ 53.
Proof.
  intros Hd L U. unfold round_half_even.
  pose proof (Z.div_mod n d ltac:(lia)) as E.
  pose proof (Z.mod_pos_bound n d Hd) as B.
  assert (F1 : 2 ^ 52 <= n / d) by (apply Z.div_le_lower_bound; lia).
  assert (F2 : n / d < 2 ^ 53) by (apply Z.div_lt_upper_bound; lia).
  destruct (2 * (n mod d) ?= d); [destruct (Z.even (n / d))| |]; lia.
Qed.

Lemma fraction_close (m a : Z) (p b : positive) :
  0 < a ->
  Z.abs (m * Z.pos b - a * Z.pos p) * 2 ^ 53 <= a * Z.pos p ->
  float64_close (m # p) (a # b).
Proof.
  intros Ha H. unfold float64_close.
  assert (E : (Qabs ((m # p) - (a # b))
               == Z.abs (m * Z.pos b - a * Z.pos p) # (p * b))%Q).
  { unfold Qminus, Qplus, Qopp, Qabs. cbn [Qnum Qden].
    replace (m * Z.pos b + - a * Z.pos p) with (m * Z.pos b - a * Z.pos p)
      by ring.
    reflexivity. }
  rewrite E. rewrite (Qabs_pos (a # b)) by (unfold Qle; simpl; lia).
  unfold Qle, Qmult, inject_Z. cbn [Qnum Qden].
  rewrite !Pos2Z.inj_mul. nia.
Qed.

Lemma two_power_neg (e : Z) :
  e < 0 -> two_power e = 1 # Z.to_pos (2 ^ (- e)).
Proof. intros H. unfold two_power. destruct (Z.ltb_spec e 0); [reflexivity | lia]. Qed.

Lemma two_power_nonneg (e : Z) :
  0 <= e -> two_power e = inject_Z (2 ^ e).
Proof. intros H. unfold two_power. destruct (Z.ltb_spec e 0); [lia | reflexivity]. Qed.

Lemma round_pos_close (a : Z) (b : positive) :
  0 < a -> float64_close (round_pos a (Z.pos b)) (a # b).
Proof.
  intros Ha. unfold round_pos.
  assert (Hb : 0 < Z.pos b) by lia.
  destruct (@last_place_bounds a (Z.pos b) Ha Hb) as [L _].
  set (e := last_place a (Z.pos b)) in *.
  pose proof (@scale_den_pos (Z.pos b) e Hb) as D.
  pose proof (@round_half_even_close (scale_num a e) _ D) as C.
  set (m := round_half_even (scale_num a e) (scale_den (Z.pos b) e)) in *.
  unfold float64_close. rewrite Qred_correct.
  destruct (Z.ltb_spec e 0) as [Hn|Hn].
  - rewrite (@two_power_neg e Hn).
    assert (P : 0 < 2 ^ (- e)) by (apply Z.pow_pos_nonneg; lia).
    assert (M : (inject_Z m * (1 # Z.to_pos (2 ^ (- e)))
                 == m # Z.to_pos (2 ^ (- e)))%Q).
    { unfold Qeq, Qmult, inject_Z. cbn [Qnum Qden]. rewrite Pos.mul_1_l. ring. }
    rewrite M. apply fraction_close; [exact Ha|].
    rewrite Z2Pos.id by exact P.
    unfold scale_num, scale_den in *.
    destruct (Z.ltb_spec e 0); [|lia]. nia.
  - rewrite (@two_power_nonneg e Hn).
    assert (P : 0 < 2 ^ e) by (apply Z.pow_pos_nonneg; lia).
    assert (M : (inject_Z m * inject_Z (2 ^ e) == (m * 2 ^ e) # 1)%Q).
    { rewrite <- inject_Z_mult. reflexivity. }
    rewrite M. apply fraction_close; [exact Ha|].
    unfold scale_num, scale_den in *.
    destruct (Z.ltb_spec e 0); [lia|]. nia.
Qed.

Lemma round_pos_binary64 (a : Z) (b : positive) :
  0 < a -> binary64 (round_pos a (Z.pos b)).
Proof.
  intros Ha. right. unfold round_pos.
  assert (Hb : 0 < Z.pos b) by lia.
  destruct (@last_place_bounds a (Z.pos b) Ha Hb) as [L U].
  set (e := last_place a (Z.pos b)) in *.
  pose proof (@scale_den_pos (Z.pos b) e Hb) as D.
  pose proof (@round_half_even_range _ _ D L U) as R.
  exists (round_half_even (scale_num a e) (scale_den (Z.pos b) e)), e.
  split; [lia | apply Qred_correct].
Qed.

Lemma float64_div_close (a : Z) (b : positive) :
  float64_close (float64_div a b) (a # b).
Proof.
  destruct a as [|a|a]; simpl.
  - unfold float64_close. unfold Qle. simpl. lia.
  - apply round_pos_close. lia.
  - pose proof (@round_pos_close (Z.pos a) b ltac:(lia)) as H.
    unfold float64_close in *.
    assert (E : (- round_pos (Z.pos a) (Z.pos b) - (Z.neg a # b)
                 == - (round_pos (Z.pos a) (Z.pos b) - (Z.pos a # b)))%Q).
    { assert (N : (Z.neg a # b == - (Z.pos a # b))%Q) by reflexivity.
      rewrite N. ring. }
    rewrite E, Qabs_opp.
    assert (E2 : (Qabs (Z.neg a # b) == Qabs (Z.pos a # b))%Q) by reflexivity.
    rewrite E2. exact H.
Qed.

Lemma binary64_opp (q : Q) : binary64 q -> binary64 (- q).
Proof.
  intros [H|(m & e & R & H)].
  - left. rewrite H. reflexivity.
  - right. exists (- m), e. split; [lia|].
    rewrite H. rewrite inject_Z_opp. ring.
Qed.

Lemma float64_div_binary64 (a : Z) (b : positive) : binary64 (float64_div a b).
Proof.
  destruct a as [|a|a]; simpl.
  - left. reflexivity.
  - apply round_pos_binary64. lia.
  - apply binary64_opp, round_pos_binary64. lia.
Qed.

Lemma mean_defined (zs : list Z) :
  zs <> [] ->
  exists q, mean (List.map Some zs) = Some q /\ float64_mean_of zs q.
Proof.
  intros Hne. unfold mean. rewrite values_map_Some.
  destruct zs as [|z zs]; [contradiction|].
  eexists. split; [reflexivity|]. split; [discriminate|]. split.
  - apply float64_div_binary64.
  - apply float64_div_close.
Qed.

Lemma fold_left_max_ge (vs : list Z) (v : Z) :
  v <= fold_left Z.max vs v /\
  (forall z, In z vs -> z <= fold_left Z.max vs v) /\
  In (fold_left Z.max vs v) (v :: vs).
Proof.
  revert v. induction vs as [|x vs IH]; intros v; simpl.
  - split; [lia|]. split; [intros z []|]. left. reflexivity.
  - destruct (IH (Z.max v x)) as (H1 & H2 & H3). split; [lia|]. split.
    + intros z [<-|Hz]; [lia | apply H2, Hz].
    + destruct H3 as [H3|H3]; [|right; right; exact H3].
      rewrite <- H3.
      destruct (Z.max_spec v x) as [[_ E]|[_ E]]; rewrite E.
      * right. left. reflexivity.
      * left. reflexivity.
Qed.

Lemma max_defined (zs : list Z) :
  zs <> [] ->
  exists m, max (List.map Some zs) = Some m /\ In m zs /\
            forall z, In z zs -> z <= m.
Proof.
  intros Hne. unfold max. rewrite values_map_Some.
  destruct zs as [|v vs]; [contradiction|].
  destruct (fold_left_max_ge vs v) as (H1 & H2 & H3).
  eexists. split; [reflexivity|]. split; [exact H3|].
  intros z [<-|Hz]; [exact H1 | apply H2, Hz].
Qed.

(** The mean of 25, 75 and 175 in float64: the number Python prints as
    91.66666666666667. *)
Example mean_of_25_75_175 :
  mean [Some 25; Some 75; Some 175]
  = Some (6450468216285867 # 70368744177664) /\
  (9166666666666666 # 100000000000000
   < 6450468216285867 # 70368744177664)%Q /\
  (6450468216285867 # 70368744177664
   < 9166666666666668 # 100000000000000)%Q.
Proof. repeat split. Qed.

(** C8. For a non-empty view (of readings with a defined estimated AQI)
    [get_summary] returns the arithmetic mean, as float64 gives it, and
    the maximum of the estimated AQI over all its records; on readings
    with values 25, 75 and 175 the mean is 91.666... (the float64
    nearest to 275/3) and the maximum 175. *)
Theorem get_summary_mean_max :
  (forall df : DataFrame,
     df <> [] -> all_defined df ->
     exists zs q m,
       col Estimated_AQI df = List.map Some zs /\
       get_summary df = (Some q, Some m) /\
       float64_mean_of zs q /\
       In m zs /\ (forall z, In z zs -> z <= m)) /\
  (forall a b c : row,
     exists q,
       get_summary [set_Estimated_AQI a (Some 25);
                    set_Estimated_AQI b (Some 75);
                    set_Estimated_AQI c (Some 175)]
       = (Some q, Some 175) /\
       q = 6450468216285867 # 70368744177664 /\
       float64_mean_of [25; 75; 175] q /\
       (9166666666666666 # 100000000000000 < q)%Q /\
       (q < 9166666666666668 # 100000000000000)%Q).
Proof.
  split.
  - intros df Hne Hdef.
    pose proof (all_defined_col Hdef) as E.
    set (zs := values (col Estimated_AQI df)) in *.
    assert (Hz : zs <> []).
    { intros Z. rewrite Z in E. destruct df; [contradiction | discriminate]. }
    destruct (mean_defined Hz) as (q & Hq & Hm).
    destruct (max_defined Hz) as (m & Hmax & Hin & Hge).
    exists zs, q, m. unfold get_summary. rewrite E, Hq, Hmax. auto.
  - intros a b c.
    assert (Hz : [25; 75; 175] <> []) by discriminate.
    destruct (mean_defined Hz) as (q & Hq & Hm).
    exists q.
    assert (Eq : q = 6450468216285867 # 70368744177664).
    { assert (V : mean (List.map Some [25; 75; 175])
                  = Some (6450468216285867 # 70368744177664))
        by reflexivity.
      rewrite V in Hq. inversion Hq. reflexivity. }
    split.
    + unfold get_summary. cbn [col List.map Estimated_AQI set_Estimated_AQI].
      cbn [List.map] in Hq. rewrite Hq. reflexivity.
    + split; [exact Eq|]. split; [exact Hm|]. rewrite Eq. split; reflexivity.
Qed.

Lemma get_summary_mean_max_witness :
  sample <> [] /\ all_defined sample /\
  exists zs q m,
    col Estimated_AQI sample = List.map Some zs /\
    get_summary sample = (Some q, Some m) /\
    float64_mean_of zs q /\
    In m zs /\ (forall z, In z zs -> z <= m).
Proof.
  assert (H1 : sample <> []) by (vm_compute; discriminate).
  assert (H2 : all_defined sample) by apply normalize_all_defined.
  split; [exact H1|]. split; [exact H2|].
  apply (proj1 get_summary_mean_max sample H1 H2).
Defined.

(* ================================================================= *)
(** ** Means by city *)

Lemma notnan_true (v : value) : notnan v = true <-> v <> VNaN.
Proof.
  destruct v; simpl; split; intros H; try reflexivity; try discriminate.
  contradiction.
Qed.

Lemma group_keys_In (df : DataFrame) (k : value) :
  In k (group_keys df) <-> In k (col City df) /\ k <> VNaN.
Proof.
  unfold group_keys.
  rewrite sort_by_In, filter_In, unique_In, notnan_true. reflexivity.
Qed.

Lemma group_keys_NoDup (df : DataFrame) : NoDup (group_keys df).
Proof.
  unfold group_keys.
  eapply Permutation_NoDup; [apply sort_by_perm|].
  apply NoDup_filter, unique_NoDup.
Qed.

Lemma grouped_df_keys (df : DataFrame) :
  List.map fst (grouped_df df) = group_keys df.
Proof.
  unfold grouped_df. rewrite map_map. simpl. apply map_id.
Qed.

Lemma grouped_df_In (df : DataFrame) (k : value) (m : option Q) :
  In (k, m) (grouped_df df) <->
  In k (group_keys df) /\
  m = mean (col Estimated_AQI
              (List.filter (fun r => value_eqb k (City r)) df)).
Proof.
  unfold grouped_df. rewrite in_map_iff. split.
  - intros (k' & E & Hk). inversion E; subst.
    rewrite map_col, getitem_map. auto.
  - intros [Hk ->]. exists k. split; [|exact Hk].
    rewrite map_col, getitem_map. reflexivity.
Qed.

Lemma group_not_empty (df : DataFrame) (k : value) :
  In k (col City df) ->
  List.filter (fun r => value_eqb k (City r)) df <> [].
Proof.
  unfold col. rewrite in_map_iff. intros (r & E & Hr) F.
  rewrite filter_nil_iff in F. specialize (F r Hr).
  rewrite E in F. assert (T : value_eqb k k = true) by (apply value_eqb_eq; reflexivity).
  congruence.
Qed.

(** The dict of line 80 holds, for each name of the city list, the value
    the grouping has for it. *)
Lemma city_stats_grouped (df : DataFrame) (c : Py.str) (m : option Q) :
  In (c, m) (city_stats df) -> In (VStr c, m) (grouped_df df).
Proof.
  unfold city_stats. rewrite in_map_iff. intros (c' & E & Hc).
  inversion E; subst c' m. clear E.
  apply grouped_df_In. split.
  - apply group_keys_In. apply cities_In in Hc. destruct Hc as [Hc _].
    split; [exact Hc | discriminate].
  - rewrite map_col, getitem_map. f_equal. f_equal.
    apply filter_ext_in_row. intros r.
    destruct (City r) as [s| |]; simpl.
    + unfold value_eqb. destruct (value_eq_dec (VStr c) (VStr s)) as [E|N].
      * inversion E. apply str_eqb_refl.
      * apply not_true_is_false. intros H. apply str_eqb_eq in H.
        apply N. rewrite H. reflexivity.
    + reflexivity.
    + reflexivity.
Qed.

(** C7, as the specification states it, fails: a reading whose city is
    missing (NaN) is a raw city value of the frame, and the grouping has
    no entry for it. *)
Lemma grouped_df_omits_missing_city :
  In VNaN (col City sample) /\
  ~ In VNaN (List.map fst (grouped_df sample)) /\
  ~ (forall k, In k (col City sample) ->
               exists m, In (k, m) (grouped_df sample)).
Proof.
  assert (H1 : In VNaN (col City sample)).
  { vm_compute. right. right. left. reflexivity. }
  assert (H2 : ~ In VNaN (List.map fst (grouped_df sample))).
  { rewrite grouped_df_keys, group_keys_In. intros [_ N]. apply N. reflexivity. }
  split; [exact H1|]. split; [exact H2|].
  intros H. destruct (H VNaN H1) as [m Hm]. apply H2.
  apply in_map_iff. exists (VNaN, m). auto.
Qed.

(** C7, amended.  The grouping has exactly one entry for each distinct
    city value of the frame other than NaN: blank strings and numbers,
    which the city list leaves out, have their entry, a missing city has
    none.  The value of an entry is the arithmetic mean, as float64
    gives it, of the estimated AQI of the records with that city.  On
    (CityA, 25), (CityA, 75), (CityB, 175) the result is CityA 50.0,
    CityB 175.0. *)
Theorem grouped_df_means (df : DataFrame) :
  NoDup (List.map fst (grouped_df df)) /\
  (forall k, In k (List.map fst (grouped_df df)) <->
             In k (col City df) /\ k <> VNaN) /\
  (all_defined df ->
   forall k m, In (k, m) (grouped_df df) ->
     exists zs q,
       col Estimated_AQI (List.filter (fun r => value_eqb k (City r)) df)
       = List.map Some zs /\
       m = Some q /\ float64_mean_of zs q) /\
  (forall s, In s (cities df) -> In (VStr s) (List.map fst (grouped_df df))) /\
  grouped_df [measured "CityA" 25; measured "CityA" 75; measured "CityB" 175]
  = [(VStr (Py.lit "CityA"), Some (50 # 1));
     (VStr (Py.lit "CityB"), Some (175 # 1))].
Proof.
  rewrite grouped_df_keys. split; [|split; [|split; [|split]]].
  - apply group_keys_NoDup.
  - intros k. apply group_keys_In.
  - intros Hdef k m Hin. apply grouped_df_In in Hin. destruct Hin as [Hk ->].
    apply group_keys_In in Hk. destruct Hk as [Hk _].
    set (g := List.filter (fun r => value_eqb k (City r)) df).
    assert (Hg : all_defined g) by (apply all_defined_filter, Hdef).
    pose proof (all_defined_col Hg) as E.
    set (zs := values (col Estimated_AQI g)) in *.
    assert (Hz : zs <> []).
    { intros Z. rewrite Z in E.
      pose proof (group_not_empty df k Hk) as Hne. fold g in Hne.
      destruct g; [contradiction | discriminate]. }
    destruct (mean_defined Hz) as (q & Hq & Hm).
    exists zs, q. rewrite E, Hq. auto.
  - intros s Hs. apply group_keys_In. apply cities_In in Hs.
    destruct Hs as [Hs _]. split; [exact Hs | discriminate].
  - reflexivity.
Qed.

Lemma grouped_df_means_witness :
  all_defined sample /\
  In (VStr (Py.lit "  "), Some (175 # 1)) (grouped_df sample) /\
  ~ In (Py.lit "  ") (cities sample) /\
  exists zs q,
    col Estimated_AQI
      (List.filter (fun r => value_eqb (VStr (Py.lit "  ")) (City r)) sample)
    = List.map Some zs /\
    Some (175 # 1) = Some q /\ float64_mean_of zs q.
Proof.
  assert (H1 : all_defined sample) by apply normalize_all_defined.
  assert (H2 : In (VStr (Py.lit "  "), Some (175 # 1)) (grouped_df sample)).
  { vm_compute. right. left. reflexivity. }
  split; [exact H1|]. split; [exact H2|]. split.
  - vm_compute. intros [H|[H|[]]]; discriminate.
  - apply (proj1 (proj2 (proj2 (grouped_df_means sample))) H1 _ _ H2).
Defined.

(* ================================================================= *)
(** ** Loading and the two stops *)

Lemma has_column_In (name : string) (cols : list Py.str) :
  has_column name cols = true <-> In (Py.lit name) cols.
Proof.
  unfold has_column. rewrite existsb_exists. split.
  - intros (x & Hx & E). apply str_eqb_eq in E. subst. exact Hx.
  - intros H. exists (Py.lit name). split; [exact H | apply str_eqb_refl].
Qed.

Lemma has_column_false (name : string) (cols : list Py.str) :
  has_column name cols = false <-> ~ In (Py.lit name) cols.
Proof.
  rewrite <- has_column_In. split.
  - intros H. rewrite H. discriminate.
  - intros H. destruct (has_column name cols);
      [exfalso; apply H; reflexivity | reflexivity].
Qed.

Lemma count_column_absent (name : string) (cols : list Py.str) :
  ~ In (Py.lit name) cols -> count_column name cols = 0%nat.
Proof.
  intros H. unfold count_column.
  rewrite (proj2 (filter_nil_iff (Py.str_eqb (Py.lit name)) cols));
    [reflexivity|].
  intros x Hx. apply not_true_is_false. intros E.
  apply str_eqb_eq in E. subst x. contradiction.
Qed.

Lemma count_column_NoDup (name : string) (cols : list Py.str) :
  NoDup cols -> In (Py.lit name) cols -> count_column name cols = 1%nat.
Proof.
  unfold count_column.
  induction 1 as [|x l Hx Hl IH]; simpl; [intros []|].
  destruct (Py.str_eqb (Py.lit name) x) eqn:E.
  - apply str_eqb_eq in E. subst x. intros _. simpl.
    pose proof (@count_column_absent name l Hx) as Z.
    unfold count_column in Z. rewrite Z. reflexivity.
  - intros [H|H]; [|apply IH, H].
    subst x. rewrite str_eqb_refl in E. discriminate.
Qed.

Lemma count_column_app_other (name other : string) (cols : list Py.str) :
  Py.lit name <> Py.lit other ->
  count_column name (cols ++ [Py.lit other]) = count_column name cols.
Proof.
  intros N. unfold count_column. rewrite filter_app, length_app. simpl.
  destruct (Py.str_eqb (Py.lit name) (Py.lit other)) eqn:E.
  - apply str_eqb_eq in E. contradiction.
  - simpl. lia.
Qed.

(** No step after the loader calls [st.stop()]. *)

Lemma bind_not_stopped (A B : Type) (m : Script A) (k : A -> Script B) :
  ending_of m <> Stopped ->
  (forall a, ending_of (k a) <> Stopped) ->
  ending_of (bind m k) <> Stopped.
Proof.
  unfold ending_of, bind. intros Hm Hk.
  destruct (snd m) as [a|e]; simpl; [apply Hk | exact Hm].
Qed.

Lemma show_not_stopped (w : widget) : ending_of (show w) <> Stopped.
Proof. discriminate. Qed.

Lemma raise_not_stopped (A : Type) (exn : string) :
  ending_of (raise A exn) <> Stopped.
Proof. discriminate. Qed.

Lemma draw_not_stopped (lib : library) (w : widget) :
  ending_of (draw lib w) <> Stopped.
Proof. unfold draw. destruct (lib w); discriminate. Qed.

Lemma selectbox_not_stopped (options : list Py.str) (choice : nat) :
  ending_of (selectbox options choice) <> Stopped.
Proof. discriminate. Qed.

Lemma need_City_not_stopped (cols : list Py.str) :
  ending_of (need_City cols) <> Stopped.
Proof.
  unfold need_City. destruct (count_column "City" cols) as [|[|n]];
    discriminate.
Qed.

Local Ltac never_stops :=
  repeat first
    [ apply show_not_stopped
    | apply draw_not_stopped
    | apply raise_not_stopped
    | apply selectbox_not_stopped
    | apply need_City_not_stopped
    | apply bind_not_stopped; [|intros ?] ].

Lemma city_view_not_stopped (lib : library) (cols : list Py.str)
    (df : DataFrame) (u : ui) :
  ending_of (city_view lib cols df u) <> Stopped.
Proof.
  unfold city_view. never_stops.
  destruct (filter_data df _ (aqi_threshold u)); never_stops.
Qed.

Lemma aqi_summary_not_stopped (lib : library) (cols : list Py.str)
    (df : DataFrame) :
  ending_of (aqi_summary lib cols df) <> Stopped.
Proof.
  unfold aqi_summary. never_stops.
  destruct (value_counts (col PM25_AQI_Category df)); never_stops.
Qed.

Lemma map_view_not_stopped (lib : library) (cols : list Py.str)
    (df : DataFrame) (u : ui) :
  ending_of (map_view lib cols df u) <> Stopped.
Proof.
  unfold map_view. never_stops.
  destruct (has_column "lat" cols && has_column "lng" cols); never_stops.
Qed.

Lemma rest_not_stopped (lib : library) (cols : list Py.str) (df : DataFrame)
    (u : ui) :
  ending_of
    (need_City cols ;;
     show Radio ;;
     match selected_tab u with
     | Home => show Title ;; show (Subheader "Dataset Overview") ;;
               show Markdown_intro
     | City_View => city_view lib cols df u
     | AQI_Summary => aqi_summary lib cols df
     | Map_View => map_view lib cols df u
     end) <> Stopped.
Proof.
  never_stops. destruct (selected_tab u).
  - never_stops.
  - apply city_view_not_stopped.
  - apply aqi_summary_not_stopped.
  - apply map_view_not_stopped.
Qed.

Lemma ending_of_ret_bind (A B : Type) (a : A) (k : A -> Script B) :
  ending_of (bind (ret a) k) = ending_of (k a).
Proof. reflexivity. Qed.

Lemma ending_of_show_bind (B : Type) (w : widget) (k : unit -> Script B) :
  ending_of (bind (show w) k) = ending_of (k tt).
Proof. reflexivity. Qed.

(** With the category column in the header the run is not stopped,
    however it ends. *)
Lemma script_with_column (lib : library) (cols : list Py.str)
    (recs : DataFrame) (u : ui) :
  In (Py.lit "PM2.5 AQI Category") (List.map Py.strip cols) ->
  ending_of (script lib (Frame cols recs) u) <> Stopped.
Proof.
  intros H. apply has_column_In in H.
  unfold script. rewrite !ending_of_show_bind.
  unfold load. rewrite ending_of_ret_bind. cbn [fst snd].
  unfold clean. rewrite H. cbn [negb].
  destruct (1 <? count_column "PM2.5 AQI Category" (List.map Py.strip cols))%nat.
  - discriminate.
  - rewrite ending_of_ret_bind. cbn [fst snd]. apply rest_not_stopped.
Qed.

(** With exactly one category column the frame is normalised whole. *)
Lemma dataset_with_column (cols : list Py.str) (recs : DataFrame) :
  count_column "PM2.5 AQI Category" (List.map Py.strip cols) = 1%nat ->
  dataset_of (Frame cols recs) = Some (normalize recs).
Proof.
  intros C.
  assert (H : has_column "PM2.5 AQI Category" (List.map Py.strip cols) = true).
  { destruct (has_column "PM2.5 AQI Category" (List.map Py.strip cols)) eqn:E;
      [reflexivity|].
    apply has_column_false, count_column_absent in E. congruence. }
  unfold dataset_of, load, clean, bind, ret. cbn [fst snd].
  rewrite H, C. reflexivity.
Qed.

Lemma script_without_column (lib : library) (cols : list Py.str)
    (recs : DataFrame) (u : ui) :
  ~ In (Py.lit "PM2.5 AQI Category") (List.map Py.strip cols) ->
  script lib (Frame cols recs) u
  = ([Page_config; Style; Error "'PM2.5 AQI Category' column is missing."],
     inr Stopped)
  /\ dataset_of (Frame cols recs) = None.
Proof.
  intros H. apply has_column_false in H. split.
  - unfold script, load, clean, bind, show, ret, st_stop. simpl.
    rewrite H. reflexivity.
  - unfold dataset_of, load, clean, bind, show, ret, st_stop. simpl.
    rewrite H. reflexivity.
Qed.

(** C4, as the specification states it, fails: a file that is there but
    cannot be opened makes [read_csv] raise [PermissionError], which the
    script does not catch.  No error is reported by the script and the
    run is not stopped by it: the exception leaves the script. *)
Lemma unreadable_file_is_not_reported :
  script draws_all (OtherError "PermissionError") (mkUi Home 0 100 0)
  = ([Page_config; Style], inr (Raised "PermissionError")) /\
  ending_of (script draws_all (OtherError "PermissionError")
                    (mkUi Home 0 100 0)) <> Stopped /\
  ~ (exists msg,
       In (Error msg)
          (fst (script draws_all (OtherError "PermissionError")
                       (mkUi Home 0 100 0)))).
Proof.
  split; [reflexivity|]. split; [discriminate|].
  intros (msg & [H|[H|[]]]); discriminate.
Qed.

(** C4, amended.  The script stops the run with an error message of its
    own, and without a frame for the rest of the script, in exactly two
    cases: [read_csv] raises [FileNotFoundError], and no header trimmed
    of whitespace is [PM2.5 AQI Category].  Nothing after the message is
    processed.  Any other exception of [read_csv], as for a file that
    cannot be read, is not caught: it ends the run with no message of
    the script and no frame.  With one column of the category name the
    frame is the whole normalised one. *)
Theorem load_stops_in_two_cases (lib : library) (r : read_result) (u : ui) :
  (r = FileNotFoundError ->
   script lib r u
   = ([Page_config; Style;
       Error "File not found. Please upload the correct file."],
      inr Stopped)
   /\ dataset_of r = None) /\
  (forall cols recs,
     r = Frame cols recs ->
     ~ In (Py.lit "PM2.5 AQI Category") (List.map Py.strip cols) ->
     script lib r u
     = ([Page_config; Style; Error "'PM2.5 AQI Category' column is missing."],
        inr Stopped)
     /\ dataset_of r = None) /\
  (ending_of (script lib r u) = Stopped <->
   r = FileNotFoundError \/
   exists cols recs,
     r = Frame cols recs /\
     ~ In (Py.lit "PM2.5 AQI Category") (List.map Py.strip cols)) /\
  (forall exn,
     r = OtherError exn ->
     script lib r u = ([Page_config; Style], inr (Raised exn))
     /\ dataset_of r = None) /\
  (forall cols recs,
     r = Frame cols recs ->
     count_column "PM2.5 AQI Category" (List.map Py.strip cols) = 1%nat ->
     dataset_of r = Some (normalize recs)).
Proof.
  split; [|split; [|split; [|split]]].
  - intros ->. split; reflexivity.
  - intros cols recs -> H. apply script_without_column, H.
  - split.
    + intros H. destruct r as [|exn|cols recs].
      * left. reflexivity.
      * discriminate.
      * right. exists cols, recs. split; [reflexivity|].
        intros Hin. apply (script_with_column lib cols recs u Hin H).
    + intros [->|(cols & recs & -> & H)].
      * reflexivity.
      * destruct (script_without_column lib cols recs u H) as [E _].
        rewrite E. reflexivity.
  - intros exn ->. split; reflexivity.
  - intros cols recs -> H. apply dataset_with_column, H.
Qed.

Lemma load_stops_in_two_cases_witness :
  (script draws_all FileNotFoundError (mkUi Home 0 100 0)
   = ([Page_config; Style;
       Error "File not found. Please upload the correct file."],
      inr Stopped)
   /\ dataset_of FileNotFoundError = None) /\
  (~ In (Py.lit "PM2.5 AQI Category")
        (List.map Py.strip [Py.lit "City"; Py.lit " PM2.5 AQI Cat "]) /\
   script draws_all
          (Frame [Py.lit "City"; Py.lit " PM2.5 AQI Cat "] sample_records)
          (mkUi City_View 0 100 0)
   = ([Page_config; Style; Error "'PM2.5 AQI Category' column is missing."],
      inr Stopped)) /\
  (script draws_all (OtherError "PermissionError") (mkUi Home 0 100 0)
   = ([Page_config; Style], inr (Raised "PermissionError"))) /\
  (count_column "PM2.5 AQI Category"
     (List.map Py.strip [Py.lit " City "; Py.lit "  PM2.5 AQI Category "])
   = 1%nat /\
   ~ In (Py.lit "PM2.5 AQI Category")
        [Py.lit " City "; Py.lit "  PM2.5 AQI Category "] /\
   dataset_of (Frame [Py.lit " City "; Py.lit "  PM2.5 AQI Category "]
                     sample_records)
   = Some sample).
Proof.
  assert (H : ~ In (Py.lit "PM2.5 AQI Category")
                   (List.map Py.strip
                      [Py.lit "City"; Py.lit " PM2.5 AQI Cat "])).
  { vm_compute. intros [E|[E|[]]]; discriminate. }
  assert (C : count_column "PM2.5 AQI Category"
                (List.map Py.strip
                   [Py.lit " City "; Py.lit "  PM2.5 AQI Category "])
              = 1%nat) by reflexivity.
  split; [|split; [|split]].
  - apply (proj1 (load_stops_in_two_cases draws_all FileNotFoundError
                    (mkUi Home 0 100 0)) eq_refl).
  - split; [exact H|].
    apply (proj1 (proj2 (load_stops_in_two_cases draws_all
                           (Frame [Py.lit "City"; Py.lit " PM2.5 AQI Cat "]
                                  sample_records)
                           (mkUi City_View 0 100 0)))
             _ _ eq_refl H).
  - apply (proj1 (proj2 (proj2 (proj2
             (load_stops_in_two_cases draws_all
                (OtherError "PermissionError") (mkUi Home 0 100 0)))))
             _ eq_refl).
  - split; [exact C|]. split.
    + vm_compute. intros [E|[E|[]]]; discriminate.
    + apply (proj2 (proj2 (proj2 (proj2
               (load_stops_in_two_cases draws_all
                  (Frame [Py.lit " City "; Py.lit "  PM2.5 AQI Category "]
                         sample_records)
                  (mkUi Home 0 100 0)))))
               _ _ eq_refl C).
Defined.

(** Two headers that trim to the category name: the column check
    passes, line 61 fails, and there is no frame. *)
Example two_category_columns :
  script draws_all
         (Frame [Py.lit "City"; Py.lit "PM2.5 AQI Category";
                 Py.lit " PM2.5 AQI Category"] sample_records)
         (mkUi Home 0 100 0)
  = ([Page_config; Style], inr Raised_on_two_category_columns) /\
  dataset_of (Frame [Py.lit "City"; Py.lit "PM2.5 AQI Category";
                     Py.lit " PM2.5 AQI Category"] sample_records)
  = None.
Proof. split; reflexivity. Qed.

(** Two headers that trim to [City]: line 65 fails. *)
Example two_City_columns :
  script draws_all
         (Frame [Py.lit "City"; Py.lit " City"; Py.lit "PM2.5 AQI Category"]
                sample_records)
         (mkUi Home 0 100 0)
  = ([Page_config; Style], inr (Raised "AttributeError")).
Proof. reflexivity. Qed.

(** An empty normalised frame: the summary tab fails at the pie chart,
    after its tables. *)
Example summary_of_nothing :
  ending_of
    (script draws_all
            (Frame [Py.lit "City"; Py.lit "PM2.5 AQI Category"]
                   [reading "Lima" "Unknown"])
            (mkUi AQI_Summary 0 100 0))
  = Raised "ValueError".
Proof. reflexivity. Qed.

(* ================================================================= *)
(** * Further properties of the script *)

(** ** Trimming ([str.strip], lines 41 and 65) *)

Lemma lstrip_split (s : Py.str) :
  exists pre, s = pre ++ Py.lstrip s /\ Forall (fun c => Py.isspace c = true) pre.
Proof.
  induction s as [|x s (pre & E & F)]; simpl.
  - exists []. split; [reflexivity | constructor].
  - destruct (Py.isspace x) eqn:Hx.
    + exists (x :: pre). split; [simpl; f_equal; exact E | constructor; assumption].
    + exists []. split; [reflexivity | constructor].
Qed.

Lemma lstrip_fixed (s : Py.str) :
  (forall c t, s = c :: t -> Py.isspace c = false) -> Py.lstrip s = s.
Proof.
  destruct s as [|x s]; simpl; intros H; [reflexivity|].
  rewrite (H x s eq_refl). reflexivity.
Qed.

Lemma rstrip_split (s : Py.str) :
  exists post, s = Py.rstrip s ++ post
               /\ Forall (fun c => Py.isspace c = true) post.
Proof.
  unfold Py.rstrip. destruct (lstrip_split (rev s)) as (pre & E & F).
  exists (rev pre). split.
  - rewrite <- rev_app_distr, <- E, rev_involutive. reflexivity.
  - apply Forall_rev, F.
Qed.

Lemma rstrip_last (s t : Py.str) (c : N) :
  Py.rstrip s = t ++ [c] -> Py.isspace c = false.
Proof.
  unfold Py.rstrip. intros H.
  assert (E : Py.lstrip (rev s) = c :: rev t).
  { rewrite <- (rev_involutive (Py.lstrip (rev s))), H, rev_app_distr.
    reflexivity. }
  apply lstrip_head in E. apply E.
Qed.

Lemma rstrip_fixed (s : Py.str) :
  (forall t c, s = t ++ [c] -> Py.isspace c = false) -> Py.rstrip s = s.
Proof.
  intros H. unfold Py.rstrip. rewrite lstrip_fixed.
  - apply rev_involutive.
  - intros c t E. apply (H (rev t) c).
    rewrite <- (rev_involutive s), E. reflexivity.
Qed.

Lemma strip_head (s t : Py.str) (c : N) :
  Py.strip s = c :: t -> Py.isspace c = false.
Proof.
  unfold Py.strip. intros H.
  destruct (rstrip_split (Py.lstrip s)) as (post & E & _).
  rewrite H in E. simpl in E. apply lstrip_head in E. apply E.
Qed.

(** X1. [strip] removes whitespace at the two ends and nothing else:
    the string is some whitespace, the stripped string, some whitespace;
    the stripped string neither starts nor ends with whitespace; and
    stripping again changes nothing. *)
Theorem strip_trims_both_ends (s : Py.str) :
  (exists pre post,
     s = pre ++ Py.strip s ++ post /\
     Forall (fun c => Py.isspace c = true) pre /\
     Forall (fun c => Py.isspace c = true) post) /\
  (forall c t, Py.strip s = c :: t -> Py.isspace c = false) /\
  (forall t c, Py.strip s = t ++ [c] -> Py.isspace c = false) /\
  Py.strip (Py.strip s) = Py.strip s.
Proof.
  assert (Hh : forall c t, Py.strip s = c :: t -> Py.isspace c = false).
  { intros c t. apply strip_head. }
  assert (Hl : forall t c, Py.strip s = t ++ [c] -> Py.isspace c = false).
  { intros t c. unfold Py.strip. apply rstrip_last. }
  split; [|split; [exact Hh | split; [exact Hl|]]].
  - destruct (lstrip_split s) as (pre & E1 & F1).
    destruct (rstrip_split (Py.lstrip s)) as (post & E2 & F2).
    exists pre, post. unfold Py.strip. rewrite <- E2. auto.
  - unfold Py.strip at 1. rewrite (lstrip_fixed Hh). apply rstrip_fixed, Hl.
Qed.

(** ** The table and the normalised frame *)

Lemma dict_get_In (d : list (Py.str * Z)) (k : Py.str) (v : Z) :
  dict_get d k = Some v -> In (k, v) d.
Proof.
  induction d as [|[k' v'] d IH]; simpl; [discriminate|].
  destruct (Py.str_eqb k' k) eqn:E.
  - apply str_eqb_eq in E. intros H. inversion H; subst. left. reflexivity.
  - intros H. right. apply IH, H.
Qed.

Lemma table_entry (k : Py.str) (v : Z) :
  In (k, v) category_to_value ->
  Py.strip k = k /\ 25 <= v <= 350 /\
  (v = 75 -> k = Py.lit "Moderate").
Proof.
  unfold category_to_value.
  intros [E|[E|[E|[E|[E|[E|[]]]]]]]; inversion E; subst;
    (split; [reflexivity | split; [lia | intros V; try discriminate V; reflexivity]]).
Qed.

Lemma normalize_row_in_table (df : DataFrame) (r : row) :
  In r (normalize df) ->
  exists k v,
    In (k, v) category_to_value /\
    PM25_AQI_Category r = VStr k /\ Estimated_AQI r = Some v.
Proof.
  intros H. apply normalize_In in H. destruct H as [E N].
  destruct (Estimated_AQI r) as [v|] eqn:Ev; [|contradiction].
  destruct (PM25_AQI_Category r) as [k| |] eqn:Ek; simpl in E;
    try discriminate.
  exists k, v. split; [apply dict_get_In; symmetry; exact E | auto].
Qed.

(** X2. Every row kept by the normalisation is recognised: its category
    cell is exactly one of the six keys, its estimated AQI is the value
    the table has for that key, and so lies between 25 and 350. *)
Theorem normalize_keeps_only_table_rows (df : DataFrame) (r : row) :
  In r (normalize df) ->
  exists k v,
    In (k, v) category_to_value /\
    PM25_AQI_Category r = VStr k /\
    Estimated_AQI r = Some v /\
    25 <= v <= 350.
Proof.
  intros H. destruct (normalize_row_in_table df r H) as (k & v & Hin & Hk & Hv).
  exists k, v. repeat split; try assumption; apply (table_entry Hin).
Qed.

Lemma normalize_keeps_only_table_rows_witness :
  In (mkRow VNaN (VStr (Py.lit "Moderate")) (Some 75) []) sample /\
  exists k v,
    In (k, v) category_to_value /\
    VStr (Py.lit "Moderate") = VStr k /\
    Some 75 = Some v /\
    25 <= v <= 350.
Proof.
  assert (H : In (mkRow VNaN (VStr (Py.lit "Moderate")) (Some 75) []) sample).
  { vm_compute. right. right. left. reflexivity. }
  split; [exact H|].
  apply (normalize_keeps_only_table_rows sample_records _ H).
Defined.

(** X3. Cells are not trimmed: a category written with whitespace before
    or after it is no key of the table, so its row is unmapped and no
    row of the normalised frame carries it. *)
Theorem padded_category_is_dropped (s : Py.str) :
  Py.strip s <> s ->
  map_cell category_to_value (VStr s) = None /\
  (forall r, PM25_AQI_Category r = VStr s -> unmapped r = true) /\
  (forall df r, In r (normalize df) -> PM25_AQI_Category r <> VStr s).
Proof.
  intros Hs.
  assert (M : map_cell category_to_value (VStr s) = None).
  { change (dict_get category_to_value s = None).
    destruct (dict_get category_to_value s) as [v|] eqn:E; [|reflexivity].
    apply dict_get_In, table_entry in E. destruct E as [E _]. contradiction. }
  split; [exact M|]. split.
  - intros r Hr. unfold unmapped. rewrite Hr, M. reflexivity.
  - intros df r Hin Hr.
    destruct (normalize_row_in_table df r Hin) as (k & v & Hk & Ek & _).
    rewrite Hr in Ek. inversion Ek; subst k.
    apply table_entry in Hk. destruct Hk as [Hk _]. contradiction.
Qed.

Lemma padded_category_is_dropped_witness :
  Py.strip (Py.lit "Good ") <> Py.lit "Good " /\
  map_cell category_to_value (VStr (Py.lit "Good ")) = None.
Proof.
  assert (H : Py.strip (Py.lit "Good ") <> Py.lit "Good ")
    by (vm_compute; discriminate).
  split; [exact H|].
  apply (proj1 (padded_category_is_dropped H)).
Defined.

Lemma filter_all (A : Type) (p : A -> bool) (l : list A) :
  (forall x, In x l -> p x = true) -> List.filter p l = l.
Proof.
  induction l as [|x l IH]; simpl; intros H; [reflexivity|].
  rewrite (H x (or_introl eq_refl)). f_equal.
  apply IH. intros y Hy. apply H. right. exact Hy.
Qed.

Lemma filter_filter_and (A : Type) (p q : A -> bool) (l : list A) :
  List.filter q (List.filter p l) = List.filter (fun x => p x && q x) l.
Proof.
  induction l as [|x l IH]; simpl; [reflexivity|].
  destruct (p x); simpl; [destruct (q x)|]; rewrite IH; reflexivity.
Qed.

Lemma assign_estimated_fixed (df : DataFrame) :
  (forall r, In r df ->
     Estimated_AQI r = map_cell category_to_value (PM25_AQI_Category r)) ->
  assign_estimated df = df.
Proof.
  unfold assign_estimated. induction df as [|r df IH]; simpl; intros H;
    [reflexivity|].
  f_equal.
  - pose proof (H _ (or_introl eq_refl)) as E.
    destruct r as [c p e o]. unfold set_Estimated_AQI.
    cbn [City PM25_AQI_Category Estimated_AQI others] in *.
    rewrite <- E. reflexivity.
  - apply IH. intros r' Hr'. apply H. right. exact Hr'.
Qed.

(** X4. Normalising is idempotent: on a frame that went through lines
    61-62, recomputing the column and dropping NaN again changes
    nothing. *)
Theorem normalize_idempotent (df : DataFrame) :
  normalize (normalize df) = normalize df.
Proof.
  unfold normalize at 1.
  rewrite assign_estimated_fixed.
  - unfold dropna. apply filter_all. intros r Hr.
    apply normalize_In in Hr. destruct Hr as [_ N].
    unfold notna. destruct (Estimated_AQI r); [reflexivity | contradiction].
  - intros r Hr. apply normalize_In in Hr. apply Hr.
Qed.

(** ** Filtering a filtered view *)

Lemma gt_max (t1 t2 : Z) (e : option Z) :
  gt t1 e && gt t2 e = gt (Z.max t1 t2) e.
Proof.
  destruct e as [z|]; simpl; [|reflexivity].
  destruct (Z.gtb_spec z t1), (Z.gtb_spec z t2), (Z.gtb_spec z (Z.max t1 t2));
    simpl; try reflexivity; lia.
Qed.

(** X5. Filtering an already filtered view, for the same city, is
    filtering once with the larger threshold; in particular filtering
    twice with the same arguments is filtering once. *)
Theorem filter_data_twice (df : DataFrame) (city : option Py.str)
    (t1 t2 : Z) :
  filter_data (filter_data df city t1) city t2
  = filter_data df city (Z.max t1 t2) /\
  filter_data (filter_data df city t1) city t1 = filter_data df city t1.
Proof.
  assert (G : forall a b,
             filter_data (filter_data df city a) city b
             = filter_data df city (Z.max a b)).
  { intros a b. destruct (provided city) eqn:P.
    - destruct city as [c|]; [|discriminate].
      assert (Hc : c <> []) by (intros ->; discriminate).
      rewrite !filter_data_city by exact Hc.
      rewrite filter_filter_and. apply filter_ext_in_row. intros r.
      rewrite <- gt_max.
      destruct (eq_str (Some c) (City r)), (gt a (Estimated_AQI r)),
        (gt b (Estimated_AQI r)); reflexivity.
    - rewrite !filter_data_threshold by exact P.
      rewrite filter_filter_and. apply filter_ext_in_row. intros r.
      apply gt_max. }
  split; [apply G|]. rewrite G, Z.max_id. reflexivity.
Qed.

(** X6. On the normalised frame the threshold only matters between 25
    and 350: from 350 upwards no record passes, whatever the city; and
    below 25, without a city, every record passes. *)
Theorem filter_data_threshold_range (df : DataFrame) (t : Z) :
  (350 <= t -> forall city, filter_data (normalize df) city t = []) /\
  (t < 25 -> filter_data (normalize df) None t = normalize df).
Proof.
  split.
  - intros Ht city.
    assert (G : forall r, In r (normalize df) ->
                          gt t (Estimated_AQI r) = false).
    { intros r Hr.
      destruct (normalize_row_in_table df r Hr) as (k & v & Hk & _ & Ev).
      apply table_entry in Hk. rewrite Ev. simpl.
      destruct (Z.gtb_spec v t); [lia | reflexivity]. }
    destruct (provided city) eqn:P.
    + destruct city as [c|]; [|discriminate].
      rewrite filter_data_city by (intros ->; discriminate).
      apply filter_nil_iff. intros r Hr. rewrite (G r Hr).
      apply andb_false_r.
    + rewrite filter_data_threshold by exact P.
      apply filter_nil_iff. exact G.
  - intros Ht. rewrite filter_data_threshold by reflexivity.
    apply filter_all. intros r Hr.
    destruct (normalize_row_in_table df r Hr) as (k & v & Hk & _ & Ev).
    apply table_entry in Hk. rewrite Ev. simpl.
    destruct (Z.gtb_spec v t); [reflexivity | lia].
Qed.

Lemma filter_data_threshold_range_witness :
  filter_data sample (Some (Py.lit "Delhi")) 350 = [] /\
  filter_data sample None 24 = sample.
Proof.
  split.
  - apply (proj1 (filter_data_threshold_range sample_records 350)).
    lia.
  - apply (proj2 (filter_data_threshold_range sample_records 24)). lia.
Defined.

(** X7. On the normalised frame the table of Moderate records (line
    135) is exactly the records whose estimated AQI is 75, in frame
    order. *)
Theorem moderate_df_is_aqi_75 (df : DataFrame) :
  moderate_df (normalize df)
  = List.filter
      (fun r => match Estimated_AQI r with
                | Some z => z =? 75
                | None => false
                end)
      (normalize df).
Proof.
  unfold moderate_df. rewrite map_col, getitem_map.
  apply filter_ext_in. intros r Hr.
  destruct (normalize_row_in_table df r Hr) as (k & v & Hk & Ek & Ev).
  rewrite Ek, Ev.
  destruct (value_eqb (VStr (Py.lit "Moderate")) (VStr k)) eqn:E.
  - apply value_eqb_eq in E. inversion E; subst k.
    symmetry. apply Z.eqb_eq.
    destruct Hk as [H|[H|[H|[H|[H|[H|[]]]]]]]; inversion H; reflexivity.
  - symmetry. apply Z.eqb_neq. intros V.
    apply table_entry in Hk. destruct Hk as (_ & _ & Hm).
    rewrite (Hm V) in E.
    assert (T : value_eqb (VStr (Py.lit "Moderate")) (VStr (Py.lit "Moderate"))
                = true) by (apply value_eqb_eq; reflexivity).
    congruence.
Qed.

(** ** The largest readings and the maximum *)

Lemma sorted_head_in (df : DataFrame) (r : row) (rest : DataFrame) :
  sort_by (fun a b => aqi_geb (Estimated_AQI a) (Estimated_AQI b)) df
  = r :: rest ->
  In r df /\ forall y, In y df -> descending r y.
Proof.
  intros E. pose proof (sorted_rows_descending df) as S. rewrite E in S.
  assert (P : forall y, In y df <-> In y (r :: rest)).
  { intros y. rewrite <- E. symmetry. apply sort_by_In. }
  split; [apply P; left; reflexivity|].
  intros y Hy. apply P in Hy. inversion S as [|? ? _ F]; subst.
  destruct Hy as [<-|Hy].
  - unfold descending. destruct (Estimated_AQI r); [lia | exact I].
  - rewrite Forall_forall in F. apply F, Hy.
Qed.

(** X9. The first row of the largest readings carries the maximum that
    [get_summary] reports: for a non-empty frame of defined values and
    n at least 1, [nlargest n] starts with a record of the frame whose
    estimated AQI is the maximum. *)
Theorem nlargest_head_is_max (n : nat) (df : DataFrame) :
  (0 < n)%nat -> df <> [] -> all_defined df ->
  exists r,
    List.hd_error (nlargest n df) = Some r /\
    In r df /\
    Estimated_AQI r = snd (get_summary df).
Proof.
  intros Hn Hne Hdef. unfold nlargest.
  destruct (sort_by (fun a b => aqi_geb (Estimated_AQI a) (Estimated_AQI b)) df)
    as [|r rest] eqn:E.
  { apply (f_equal (@List.length row)) in E. rewrite sort_by_length in E.
    destruct df; [contradiction | discriminate]. }
  destruct (sorted_head_in df E) as [Hr Hall].
  exists r. destruct n as [|n]; [lia|]. split; [reflexivity|].
  split; [exact Hr|].
  pose proof (all_defined_col Hdef) as C.
  set (zs := values (col Estimated_AQI df)) in *.
  assert (Hz : zs <> []).
  { intros Z. rewrite Z in C. destruct df; [contradiction | discriminate]. }
  destruct (max_defined Hz) as (m & Hmax & Hin & Hge).
  unfold get_summary. simpl snd. rewrite C, Hmax.
  destruct (Hdef r Hr) as [x Ex]. rewrite Ex. f_equal.
  assert (Hx : In x zs).
  { assert (I : In (Some x) (col Estimated_AQI df)).
    { unfold col. apply in_map_iff. exists r. auto. }
    rewrite C in I. apply in_map_iff in I.
    destruct I as (x' & E' & I). inversion E'; subst. exact I. }
  assert (Hm : m <= x).
  { assert (I : In (Some m) (col Estimated_AQI df)).
    { rewrite C. apply in_map. exact Hin. }
    unfold col in I. apply in_map_iff in I. destruct I as (r' & Er' & Hr').
    specialize (Hall r' Hr'). unfold descending in Hall.
    rewrite Ex, Er' in Hall. exact Hall. }
  specialize (Hge x Hx). lia.
Qed.

Lemma nlargest_head_is_max_witness :
  (0 < 10)%nat /\ sample <> [] /\ all_defined sample /\
  exists r,
    List.hd_error (nlargest 10 sample) = Some r /\
    In r sample /\
    Estimated_AQI r = snd (get_summary sample).
Proof.
  assert (H0 : (0 < 10)%nat) by lia.
  assert (H1 : sample <> []) by (vm_compute; discriminate).
  assert (H2 : all_defined sample) by apply normalize_all_defined.
  split; [exact H0|]. split; [exact H1|]. split; [exact H2|].
  apply (nlargest_head_is_max H0 H1 H2).
Defined.

(** X10. When the frame has no more than n records, [nlargest n] shows
    all of them: its result is the frame reordered. *)
Theorem nlargest_of_small_frame (n : nat) (df : DataFrame) :
  (List.length df <= n)%nat ->
  Permutation df (nlargest n df) /\
  List.length (nlargest n df) = List.length df.
Proof.
  intros H. unfold nlargest.
  rewrite firstn_all2 by (rewrite sort_by_length; exact H).
  split; [apply sort_by_perm | apply sort_by_length].
Qed.

Lemma nlargest_of_small_frame_witness :
  (List.length sample <= 10)%nat /\
  Permutation sample (nlargest 10 sample) /\
  List.length (nlargest 10 sample) = List.length sample.
Proof.
  assert (H : (List.length sample <= 10)%nat) by (vm_compute; lia).
  split; [exact H|].
  apply (@nlargest_of_small_frame 10 sample H).
Defined.

(** ** Group keys and the city list *)

Lemma key_leb_total (a b : value) : key_leb a b = false -> key_leb b a = true.
Proof.
  destruct a as [x|x|], b as [y|y|]; simpl; try reflexivity; try discriminate.
  - apply leb_total.
  - rewrite Z.leb_gt, Z.leb_le. lia.
Qed.

Lemma key_leb_trans (a b c : value) :
  key_leb a b = true -> key_leb b c = true -> key_leb a c = true.
Proof.
  destruct a as [x|x|], b as [y|y|], c as [z|z|]; simpl;
    try reflexivity; try discriminate.
  - apply leb_trans.
  - rewrite !Z.leb_le. lia.
Qed.

Lemma group_keys_sorted (df : DataFrame) :
  StronglySorted (fun a b => key_leb a b = true) (group_keys df).
Proof.
  unfold group_keys. apply sort_by_strongly_sorted.
  - apply key_leb_total.
  - apply key_leb_trans.
Qed.

Lemma city_names_sorted (l : list value) :
  StronglySorted (fun a b => key_leb a b = true) l ->
  StronglySorted (fun a b => Py.leb a b = true) (flat_map city_name l).
Proof.
  induction 1 as [|v l Hs IH Hall]; simpl; [constructor|].
  destruct (city_name v) as [|s rest] eqn:E; simpl; [exact IH|].
  assert (Hv : In s (city_name v)) by (rewrite E; left; reflexivity).
  apply city_name_In in Hv. destruct Hv as [-> _].
  assert (rest = []) as ->.
  { simpl in E. destruct (negb _); inversion E; reflexivity. }
  simpl. constructor; [exact IH|].
  rewrite Forall_forall in *. intros s' Hs'.
  apply in_flat_map in Hs'. destruct Hs' as (v' & Hv' & Hin).
  apply city_name_In in Hin. destruct Hin as [-> _].
  apply (Hall _ Hv').
Qed.

Lemma str_lt_irrefl (a : Py.str) : ~ str_lt a a.
Proof. unfold str_lt. rewrite ltb_irrefl. discriminate. Qed.

Lemma strictly_sorted_unique (l1 l2 : list Py.str) :
  StronglySorted str_lt l1 -> StronglySorted str_lt l2 ->
  (forall x, In x l1 <-> In x l2) -> l1 = l2.
Proof.
  intros S1. revert l2. induction S1 as [|x l1 S1 IH F1]; intros l2 S2 H.
  - destruct l2 as [|y l2]; [reflexivity|].
    exfalso. apply (H y). left. reflexivity.
  - destruct S2 as [|y l2 S2 F2].
    { exfalso. apply (H x). left. reflexivity. }
    rewrite Forall_forall in F1, F2.
    assert (E : x = y).
    { destruct (proj1 (H x) (or_introl eq_refl)) as [E|Hx]; [auto|].
      destruct (proj2 (H y) (or_introl eq_refl)) as [E|Hy]; [auto|].
      exfalso. pose proof (F2 x Hx) as A. pose proof (F1 y Hy) as B.
      unfold str_lt in A, B. apply ltb_asym in A. congruence. }
    subst y. f_equal. apply IH; [exact S2|].
    intros z. split; intros Hz.
    + destruct (proj1 (H z) (or_intror Hz)) as [E|Hz']; [|exact Hz'].
      subst z. exfalso. apply (str_lt_irrefl (F1 x Hz)).
    + destruct (proj2 (H z) (or_intror Hz)) as [E|Hz']; [|exact Hz'].
      subst z. exfalso. apply (str_lt_irrefl (F2 x Hz)).
Qed.

(** X11. The groups of line 110 come in ascending order of their key,
    and the city list of line 65 is that list of keys with the blank
    strings and the numbers left out, in the same order. *)
Theorem cities_are_the_named_groups (df : DataFrame) :
  StronglySorted (fun a b => key_leb a b = true)
                 (List.map fst (grouped_df df)) /\
  cities df = flat_map city_name (List.map fst (grouped_df df)).
Proof.
  rewrite grouped_df_keys. split; [apply group_keys_sorted|].
  apply strictly_sorted_unique.
  - apply strongly_sorted_strict; [apply cities_NoDup|].
    unfold cities, sorted. apply sort_by_strongly_sorted.
    + apply leb_total.
    + apply leb_trans.
  - apply strongly_sorted_strict.
    + apply city_names_NoDup, group_keys_NoDup.
    + apply city_names_sorted, group_keys_sorted.
  - intros s. rewrite cities_In, in_flat_map. split.
    + intros [H N]. exists (VStr s). split.
      * apply group_keys_In. split; [exact H | discriminate].
      * apply city_name_In. auto.
    + intros (v & Hv & Hs). apply city_name_In in Hs. destruct Hs as [-> N].
      apply group_keys_In in Hv. split; [apply Hv | exact N].
Qed.

Lemma group_mean_defined (df : DataFrame) (k : value) :
  all_defined df -> In k (col City df) ->
  exists q,
    mean (col Estimated_AQI (List.filter (fun r => value_eqb k (City r)) df))
    = Some q.
Proof.
  intros Hdef Hk.
  set (g := List.filter (fun r => value_eqb k (City r)) df).
  assert (Hg : all_defined g) by (apply all_defined_filter, Hdef).
  pose proof (all_defined_col Hg) as E.
  set (zs := values (col Estimated_AQI g)) in *.
  assert (Hz : zs <> []).
  { intros Z. rewrite Z in E.
    pose proof (group_not_empty df k Hk) as Hne. fold g in Hne.
    destruct g; [contradiction | discriminate]. }
  destruct (mean_defined Hz) as (q & Hq & _).
  exists q. rewrite E. exact Hq.
Qed.

(** X12. The dict of line 80 has one entry for each name of the city
    list, in that order; the value of an entry is the mean the grouping
    of line 110 has for that city, and with all estimated AQI defined it
    is a number, never NaN. *)
Theorem city_stats_entries (df : DataFrame) :
  List.map fst (city_stats df) = cities df /\
  (forall c m, In (c, m) (city_stats df) -> In (VStr c, m) (grouped_df df)) /\
  (all_defined df ->
   forall c m, In (c, m) (city_stats df) -> exists q, m = Some q).
Proof.
  split; [|split].
  - unfold city_stats. rewrite map_map. simpl. apply map_id.
  - intros c m. apply city_stats_grouped.
  - intros Hdef c m H. apply city_stats_grouped in H.
    apply grouped_df_In in H. destruct H as [Hk ->].
    apply group_keys_In in Hk. destruct Hk as [Hk _].
    destruct (@group_mean_defined df _ Hdef Hk) as [q Hq]. exists q. exact Hq.
Qed.

Lemma city_stats_entries_witness :
  all_defined sample /\
  In (Py.lit "Oslo", Some (50 # 1)) (city_stats sample) /\
  exists q, Some (50 # 1) = Some q.
Proof.
  assert (H1 : all_defined sample) by apply normalize_all_defined.
  assert (H2 : In (Py.lit "Oslo", Some (50 # 1)) (city_stats sample)).
  { vm_compute. right. left. reflexivity. }
  split; [exact H1|]. split; [exact H2|].
  apply (proj2 (proj2 (city_stats_entries sample)) H1 _ _ H2).
Defined.

(** ** The category counts of the pie chart (line 147) *)

Lemma list_sum_perm (l l' : list nat) :
  Permutation l l' -> list_sum l = list_sum l'.
Proof.
  induction 1; simpl; lia.
Qed.

Lemma list_sum_map_add (A : Type) (f g : A -> nat) (l : list A) :
  list_sum (List.map (fun k => (f k + g k)%nat) l)
  = (list_sum (List.map f l) + list_sum (List.map g l))%nat.
Proof.
  induction l as [|x l IH]; simpl; [reflexivity|]. rewrite IH. lia.
Qed.

Lemma indicator_sum (x : value) (keys : list value) :
  NoDup keys ->
  list_sum (List.map (fun k => if value_eq_dec x k then 1%nat else 0%nat) keys)
  = if in_dec value_eq_dec x keys then 1%nat else 0%nat.
Proof.
  induction 1 as [|k keys Hk Hn IH]; simpl; [reflexivity|].
  rewrite IH.
  destruct (value_eq_dec x k) as [E|N]; destruct (value_eq_dec k x) as [E'|N'];
    try congruence.
  - subst k. destruct (in_dec value_eq_dec x keys); [contradiction | reflexivity].
  - destruct (in_dec value_eq_dec x keys); reflexivity.
Qed.

Lemma count_occ_cons_add (x : value) (s : list value) (k : value) :
  count_occ value_eq_dec (x :: s) k
  = ((if value_eq_dec x k then 1 else 0) + count_occ value_eq_dec s k)%nat.
Proof. simpl. destruct (value_eq_dec x k); reflexivity. Qed.

Lemma sum_of_counts (s keys : list value) :
  NoDup keys ->
  list_sum (List.map (count_occ value_eq_dec s) keys)
  = List.length
      (List.filter (fun x => if in_dec value_eq_dec x keys then true else false)
                   s).
Proof.
  intros Hn. induction s as [|x s IH].
  - simpl. induction keys as [|k keys IHk]; simpl; [reflexivity|].
    apply IHk. inversion Hn; assumption.
  - rewrite (map_ext _ _ (count_occ_cons_add x s)).
    rewrite list_sum_map_add, IH, (indicator_sum x Hn). simpl.
    destruct (in_dec value_eq_dec x keys); reflexivity.
Qed.

Lemma value_counts_perm (s : list value) :
  Permutation
    (List.map (fun k => (k, count_occ value_eq_dec s k))
              (List.filter notnan (unique s)))
    (value_counts s).
Proof. unfold value_counts. apply sort_by_perm. Qed.

Lemma value_counts_keys_NoDup (s : list value) :
  NoDup (List.map fst (value_counts s)).
Proof.
  eapply Permutation_NoDup;
    [apply Permutation_map, value_counts_perm|].
  rewrite map_map. simpl. rewrite map_id.
  apply NoDup_filter, unique_NoDup.
Qed.

Lemma value_counts_In (s : list value) (k : value) (n : nat) :
  In (k, n) (value_counts s) <->
  In k s /\ k <> VNaN /\ n = count_occ value_eq_dec s k.
Proof.
  unfold value_counts.
  rewrite sort_by_In, in_map_iff. split.
  - intros (k' & E & Hk). inversion E; subst.
    apply filter_In in Hk. destruct Hk as [Hk Hn].
    rewrite unique_In in Hk. apply notnan_true in Hn. auto.
  - intros (Hk & Hn & ->). exists k. split; [reflexivity|].
    apply filter_In. rewrite unique_In, notnan_true. auto.
Qed.

Lemma value_counts_total (s : list value) :
  list_sum (List.map snd (value_counts s))
  = List.length (List.filter notnan s).
Proof.
  rewrite <- (list_sum_perm (Permutation_map snd (value_counts_perm s))).
  rewrite map_map. simpl.
  rewrite sum_of_counts by (apply NoDup_filter, unique_NoDup).
  f_equal. apply filter_ext_in. intros x Hx.
  destruct (in_dec value_eq_dec x (List.filter notnan (unique s))) as [I|I].
  - apply filter_In in I. symmetry. apply I.
  - symmetry. apply not_true_is_false. intros T. apply I.
    apply filter_In. rewrite unique_In. auto.
Qed.

(** X13. The counts of the pie chart: one slice per distinct category
    other than NaN, each with the number of its records (at least one),
    largest first, adding up to the number of records with a category.
    On the normalised frame the slices add up to the whole frame and
    there are at most six of them. *)
Theorem value_counts_slices :
  (forall s : list value,
     NoDup (List.map fst (value_counts s)) /\
     (forall k n, In (k, n) (value_counts s) <->
                  In k s /\ k <> VNaN /\ n = count_occ value_eq_dec s k) /\
     (forall k n, In (k, n) (value_counts s) -> (0 < n)%nat) /\
     StronglySorted (fun a b => (snd b <= snd a)%nat) (value_counts s) /\
     list_sum (List.map snd (value_counts s))
     = List.length (List.filter notnan s)) /\
  (forall df : DataFrame,
     list_sum (List.map snd
                 (value_counts (col PM25_AQI_Category (normalize df))))
     = List.length (normalize df) /\
     (List.length (value_counts (col PM25_AQI_Category (normalize df)))
      <= 6)%nat).
Proof.
  split.
  - intros s. split; [apply value_counts_keys_NoDup|].
    split; [apply value_counts_In|]. split; [|split].
    + intros k n H. apply value_counts_In in H. destruct H as (Hk & _ & ->).
      apply count_occ_In, Hk.
    + eapply StronglySorted_impl;
        [|apply (@sort_by_strongly_sorted _
                   (fun a b : value * nat => Nat.leb (snd b) (snd a)))].
      * intros a b H. apply Nat.leb_le. exact H.
      * intros a b H. apply Nat.leb_gt in H. apply Nat.leb_le. lia.
      * intros a b c. rewrite !Nat.leb_le. lia.
    + apply value_counts_total.
  - intros df.
    assert (K : forall v, In v (col PM25_AQI_Category (normalize df)) ->
                          exists k z, In (k, z) category_to_value /\ v = VStr k).
    { intros v Hv. unfold col in Hv. apply in_map_iff in Hv.
      destruct Hv as (r & <- & Hr).
      destruct (normalize_row_in_table df r Hr) as (k & z & Hk & Ek & _).
      exists k, z. auto. }
    split.
    + rewrite value_counts_total.
      rewrite <- (length_map PM25_AQI_Category (normalize df)).
      fold (col PM25_AQI_Category (normalize df)).
      f_equal. apply filter_all. intros v Hv.
      destruct (K v Hv) as (k & z & _ & ->). reflexivity.
    + rewrite <- (length_map fst).
      change 6%nat
        with (List.length (List.map (fun e => VStr (fst e)) category_to_value)).
      apply NoDup_incl_length; [apply value_counts_keys_NoDup|].
      intros v Hv. apply in_map_iff in Hv. destruct Hv as ([k n] & <- & Hin).
      apply value_counts_In in Hin. destruct Hin as (Hk & _).
      destruct (K k Hk) as (k' & z & Hin & ->).
      apply in_map_iff. exists (k', z). auto.
Qed.

(** ** A frame without a City column (line 65) *)

(** X14. A file that has the category column but no column whose
    trimmed name is City (headers distinct after trimming) passes the
    loader and then fails on line 65: the run ends with an uncaught
    KeyError, with nothing on the page beyond the page setup, whatever
    the tab. *)
Theorem missing_City_raises_KeyError (lib : library) (cols : list Py.str)
    (recs : DataFrame) (u : ui) :
  NoDup (List.map Py.strip cols) ->
  In (Py.lit "PM2.5 AQI Category") (List.map Py.strip cols) ->
  ~ In (Py.lit "City") (List.map Py.strip cols) ->
  script lib (Frame cols recs) u
  = ([Page_config; Style], inr (Raised "KeyError")).
Proof.
  intros Hd Hc Hn.
  pose proof (@count_column_NoDup "PM2.5 AQI Category" _ Hd Hc) as C1.
  pose proof (@count_column_absent "City" _ Hn) as C0.
  apply has_column_In in Hc.
  assert (E : count_column "City"
                (if has_column "Estimated AQI" (List.map Py.strip cols)
                 then List.map Py.strip cols
                 else List.map Py.strip cols ++ [Py.lit "Estimated AQI"])
              = 0%nat).
  { destruct (has_column "Estimated AQI" _); [exact C0|].
    rewrite count_column_app_other; [exact C0 | discriminate]. }
  unfold script, load, clean, need_City, bind, show, ret, raise.
  cbn [fst snd app]. rewrite Hc, C1. cbn [negb Nat.ltb Nat.leb fst snd app].
  rewrite E. reflexivity.
Qed.

Lemma missing_City_raises_KeyError_witness :
  NoDup (List.map Py.strip [Py.lit "Town"; Py.lit " PM2.5 AQI Category"]) /\
  In (Py.lit "PM2.5 AQI Category")
     (List.map Py.strip [Py.lit "Town"; Py.lit " PM2.5 AQI Category"]) /\
  ~ In (Py.lit "City")
       (List.map Py.strip [Py.lit "Town"; Py.lit " PM2.5 AQI Category"]) /\
  script draws_all
         (Frame [Py.lit "Town"; Py.lit " PM2.5 AQI Category"] sample_records)
         (mkUi AQI_Summary 0 100 0)
  = ([Page_config; Style], inr (Raised "KeyError")).
Proof.
  assert (H1 : NoDup (List.map Py.strip
                        [Py.lit "Town"; Py.lit " PM2.5 AQI Category"])).
  { vm_compute. constructor.
    - intros [E|[]]. discriminate.
    - constructor; [intros [] | constructor]. }
  assert (H2 : In (Py.lit "PM2.5 AQI Category")
                  (List.map Py.strip
                     [Py.lit "Town"; Py.lit " PM2.5 AQI Category"])).
  { vm_compute. right. left. reflexivity. }
  assert (H3 : ~ In (Py.lit "City")
                    (List.map Py.strip
                       [Py.lit "Town"; Py.lit " PM2.5 AQI Category"])).
  { vm_compute. intros [E|[E|[]]]; discriminate. }
  split; [exact H1|]. split; [exact H2|]. split; [exact H3|].
  apply (@missing_City_raises_KeyError draws_all
           [Py.lit "Town"; Py.lit " PM2.5 AQI Category"] sample_records
           (mkUi AQI_Summary 0 100 0) H1 H2 H3).
Defined.

(** ** What the tabs show of the selection (lines 96-121, 154-162) *)





Lemma chosen_in (options : list Py.str) (choice : nat) (name : Py.str) :
  chosen options choice = Some name -> In name options.
Proof. unfold chosen. apply nth_error_In. Qed.






